(** * Grid cell-reservation engine of the Obision desktop-icons extension

    Shallow embedding of the cell-grid bookkeeping of [src/extension.js]:
    [_buildCellGrid], [getCell], [placeIconInCell], [removeIconFromCells],
    [areCellsFree], [findFreeCell] and [findNearestFreeCell], and of their
    callers: [getCellAtPixel], dragging ([_createDropIndicator],
    [_updateDropIndicator], [_canIconFitAt], [_endDrag]), icon loading
    ([_loadDesktopFiles], [_addTrashIcon], [_addHomeIcon]), the positions
    saved by [_reloadIcons] and the cell freeing of the file-removed handler
    of [_setupFileMonitor].

    - JS numbers used as grid coordinates are modelled as [Z].
    - [this._cells] is [null] or an array of columns, each an array of
      cell objects: [option (list (list cell))], indexed [_cells[col][row]].
    - Cells are distinct mutable objects stored once in the table; mutating
      [cell.occupied]/[cell.icon] after [getCell] is an in-place update of
      that slot of the table ([set_cell]).
    - Icons are compared by reference ([===]); an icon is identified by a
      [nat] id, and a cell stores the id of the icon it references.
    - The settings [grid-columns]/[grid-rows] and the cell size in pixels
      ([_getCellWidth]/[_getCellHeight]) are fields of the state. *)

From Stdlib Require Import ZArith Lia.
From stdpp Require Import base list.

Open Scope Z_scope.

(** ** Data model *)

(** [cellSize] objects [{ cols, rows }]. *)
Record footprint := mkFootprint { fp_cols : Z; fp_rows : Z }.

(** The cell objects built by [_buildCellGrid]:
    [{ col, row, x, y, width, height, icon, occupied }]. *)
Record cell := mkCell {
  cell_col : Z;
  cell_row : Z;
  cell_x : Z;
  cell_y : Z;
  cell_width : Z;
  cell_height : Z;
  cell_icon : option nat;
  cell_occupied : bool
}.

(** An icon actor: its identity and its optional [_cellSize]. *)
Record icon := mkIcon { icon_id : nat; icon_cellSize : option footprint }.

(** The part of the extension object the grid code reads and writes. *)
Record desk := mkDesk {
  grid_columns : Z;   (* settings.get_int('grid-columns') *)
  grid_rows : Z;      (* settings.get_int('grid-rows') *)
  cell_w : Z;         (* this._getCellWidth() *)
  cell_h : Z;         (* this._getCellHeight() *)
  _cells : option (list (list cell))
}.

Definition with_cells (d : desk) (cs : option (list (list cell))) : desk :=
  mkDesk (grid_columns d) (grid_rows d) (cell_w d) (cell_h d) cs.

(** ** Loops *)

(** [for (let i = lo; i < lo + n; i++) s = body(i, s)]. *)
Fixpoint for_range {St} (lo : Z) (n : nat) (body : Z -> St -> St) (s : St) : St :=
  match n with
  | O => s
  | S n' => for_range (lo + 1) n' body (body lo s)
  end.

(** A loop whose body may [return] a value: the first [Some] wins. *)
Fixpoint find_range {A} (lo : Z) (n : nat) (f : Z -> option A) : option A :=
  match n with
  | O => None
  | S n' => match f lo with
            | Some a => Some a
            | None => find_range (lo + 1) n' f
            end
  end.

(** A loop whose body may [return false]; [true] after the loop. *)
Fixpoint all_range (lo : Z) (n : nat) (f : Z -> bool) : bool :=
  match n with
  | O => true
  | S n' => f lo && all_range (lo + 1) n' f
  end.

(** The values taken by the loop counter. *)
Fixpoint zrange (lo : Z) (n : nat) : list Z :=
  match n with
  | O => []
  | S n' => lo :: zrange (lo + 1) n'
  end.

(** ** Operations *)

(** [_buildCellGrid()] *)
Definition _buildCellGrid (d : desk) : desk :=
  let columns := grid_columns d in
  let rows := grid_rows d in
  let cellWidth := cell_w d in
  let cellHeight := cell_h d in
  with_cells d (Some
    (map (fun col =>
            map (fun row =>
                   {| cell_col := col; cell_row := row;
                      cell_x := col * cellWidth; cell_y := row * cellHeight;
                      cell_width := cellWidth; cell_height := cellHeight;
                      cell_icon := None; cell_occupied := false |})
                (zrange 0 (Z.to_nat rows)))
         (zrange 0 (Z.to_nat columns)))).

(** [getCell(col, row)] *)
Definition getCell (d : desk) (col row : Z) : option cell :=
  match _cells d with
  | None => None
  | Some cs =>
      if (col <? 0) || (row <? 0) then None
      else match cs !! Z.to_nat col with
           | None => None
           | Some column => column !! Z.to_nat row
           end
  end.

(** In-place update of the cell object stored at [_cells[col][row]]. *)
Definition set_cell (d : desk) (col row : Z) (g : cell -> cell) : desk :=
  match _cells d with
  | None => d
  | Some cs => with_cells d (Some (alter (alter g (Z.to_nat row)) (Z.to_nat col) cs))
  end.

(** [cell.occupied = true; cell.icon = icon;] *)
Definition mark (ic : icon) (c : cell) : cell :=
  {| cell_col := cell_col c; cell_row := cell_row c; cell_x := cell_x c;
     cell_y := cell_y c; cell_width := cell_width c;
     cell_height := cell_height c;
     cell_icon := Some (icon_id ic); cell_occupied := true |}.

(** [cell.icon = null; cell.occupied = false;] *)
Definition clear (c : cell) : cell :=
  {| cell_col := cell_col c; cell_row := cell_row c; cell_x := cell_x c;
     cell_y := cell_y c; cell_width := cell_width c;
     cell_height := cell_height c;
     cell_icon := None; cell_occupied := false |}.

(** [icon._cellSize || { cols: 1, rows: 1 }] *)
Definition iconCellSize (ic : icon) : footprint :=
  match icon_cellSize ic with
  | Some fp => fp
  | None => mkFootprint 1 1
  end.

(** One iteration of the marking loop of [placeIconInCell]:
    [const cell = this.getCell(c, r); if (cell) { ... }]. *)
Definition place_step (ic : icon) (c r : Z) (d : desk) : desk :=
  match getCell d c r with
  | Some _ => set_cell d c r (mark ic)
  | None => d
  end.

(** [placeIconInCell(icon, col, row)]: the new state, and the
    [icon.set_position(x, y)] call made, if any. *)
Definition placeIconInCell (ic : icon) (col row : Z) (d : desk)
  : desk * option (Z * Z) :=
  let cellSize := iconCellSize ic in
  let d' := for_range 0 (Z.to_nat (fp_cols cellSize)) (fun dc d =>
              for_range 0 (Z.to_nat (fp_rows cellSize)) (fun dr d =>
                place_step ic (col + dc) (row + dr) d) d) d in
  match getCell d' col row with
  | Some c => (d', Some (cell_x c, cell_y c))
  | None => (d', None)
  end.

(** One iteration of [removeIconFromCells]:
    [if (cell && cell.icon === icon) { ... }]. *)
Definition release_step (ic : icon) (col row : Z) (d : desk) : desk :=
  match getCell d col row with
  | Some c => if bool_decide (cell_icon c = Some (icon_id ic))
              then set_cell d col row clear else d
  | None => d
  end.

(** [removeIconFromCells(icon)] *)
Definition removeIconFromCells (ic : icon) (d : desk) : desk :=
  match _cells d with
  | None => d
  | Some _ =>
      let columns := grid_columns d in
      let rows := grid_rows d in
      for_range 0 (Z.to_nat columns) (fun col d =>
        for_range 0 (Z.to_nat rows) (fun row d =>
          release_step ic col row d) d) d
  end.

(** JS [n || 1] on a number: [0] is falsy. *)
Definition or_one (n : Z) : Z := if n =? 0 then 1 else n.

(** [areCellsFree(col, row, cellSize, excludeIcon = null)];
    [excludeIcon] is [None] for [null]. *)
Definition areCellsFree (d : desk) (col row : Z) (cellSize : footprint)
    (excludeIcon : option nat) : bool :=
  let cols := or_one (fp_cols cellSize) in
  let rows := or_one (fp_rows cellSize) in
  all_range 0 (Z.to_nat cols) (fun dc =>
    all_range 0 (Z.to_nat rows) (fun dr =>
      match getCell d (col + dc) (row + dr) with
      | None => false
      | Some c =>
          negb (cell_occupied c && negb (bool_decide (cell_icon c = excludeIcon)))
      end)).

(** [findFreeCell(cellSize, excludeIcon = null)] *)
Definition findFreeCell (d : desk) (cellSize : footprint)
    (excludeIcon : option nat) : option (Z * Z) :=
  let columns := grid_columns d in
  let rows := grid_rows d in
  find_range 0 (Z.to_nat rows) (fun row =>
    find_range 0 (Z.to_nat columns) (fun col =>
      if areCellsFree d col row cellSize excludeIcon then Some (col, row)
      else None)).

Definition maxRadius : Z := 20.

(** [findNearestFreeCell(targetCol, targetRow, cellSize, excludeIcon = null)];
    [for (radius = 1; radius <= maxRadius; ...)] runs [maxRadius] times,
    [for (dc = -radius; dc <= radius; ...)] runs [2 * radius + 1] times. *)
Definition findNearestFreeCell (d : desk) (targetCol targetRow : Z)
    (cellSize : footprint) (excludeIcon : option nat) : option (Z * Z) :=
  if areCellsFree d targetCol targetRow cellSize excludeIcon
  then Some (targetCol, targetRow)
  else
    find_range 1 (Z.to_nat maxRadius) (fun radius =>
      find_range (- radius) (Z.to_nat (2 * radius + 1)) (fun dc =>
        find_range (- radius) (Z.to_nat (2 * radius + 1)) (fun dr =>
          if negb (Z.abs dc =? radius) && negb (Z.abs dr =? radius)
          then None (* continue *)
          else
            let col := targetCol + dc in
            let row := targetRow + dr in
            if (col <? 0) || (row <? 0) then None (* continue *)
            else if areCellsFree d col row cellSize excludeIcon
            then Some (col, row)
            else None))).

(** ** Reachable states

    The extension starts with [this._cells = null]; the grid is rebuilt
    from the current settings on enable and whenever [grid-columns],
    [grid-rows] or the monitors change ([rs_rebuild] sets the dimensions and
    calls [_buildCellGrid]); icons are placed and removed with
    [placeIconInCell] and [removeIconFromCells]. *)
Inductive reachable : desk -> Prop :=
| rs_init cols rows w h : reachable (mkDesk cols rows w h None)
| rs_rebuild d cols rows w h :
    reachable d -> reachable (_buildCellGrid (mkDesk cols rows w h (_cells d)))
| rs_place d ic col row :
    reachable d -> reachable (fst (placeIconInCell ic col row d))
| rs_release d ic :
    reachable d -> reachable (removeIconFromCells ic d).

(** The table is [null], or it has exactly the cells of
    [[0, columns) x [0, rows)] (the data model of the grid). *)
Definition wf (d : desk) : Prop :=
  _cells d = None \/
  forall col row, is_Some (getCell d col row) <->
                  0 <= col < grid_columns d /\ 0 <= row < grid_rows d.

(** ** The spiral search as the specification words it *)

(** Offsets [(dc, dr)] with [max(|dc|, |dr|) = r], [dc] ascending, then
    [dr] ascending. *)
Definition ring_offsets (r : Z) : list (Z * Z) :=
  List.filter (fun '(dc, dr) => Z.max (Z.abs dc) (Z.abs dr) =? r)
    (list_prod (zrange (- r) (Z.to_nat (2 * r + 1)))
               (zrange (- r) (Z.to_nat (2 * r + 1)))).

(** Target first; else rings [r = 1 .. maxRadius], skipping negative
    anchors, first anchor where [areCellsFree] holds. *)
Definition findNearestFree_spec (d : desk) (targetCol targetRow : Z)
    (cellSize : footprint) (excludeIcon : option nat) : option (Z * Z) :=
  if areCellsFree d targetCol targetRow cellSize excludeIcon
  then Some (targetCol, targetRow)
  else
    List.find (fun '(col, row) =>
                 (0 <=? col) && (0 <=? row) &&
                 areCellsFree d col row cellSize excludeIcon)
      (flat_map (fun r => map (fun '(dc, dr) => (targetCol + dc, targetRow + dr))
                              (ring_offsets r))
                (zrange 1 (Z.to_nat maxRadius))).

(** The grid of the specification's first scenario: 4x4, icon "A" (id 1,
    footprint 2x2) placed at (0,0). *)
Definition icon_A : icon := mkIcon 1 (Some (mkFootprint 2 2)).
Definition grid_4x4 : desk := _buildCellGrid (mkDesk 4 4 100 100 None).
Definition grid_4x4_A : desk := fst (placeIconInCell icon_A 0 0 grid_4x4).

(** [removeIconFromCells] seen cell by cell: a cell referencing the icon is
    cleared, any other cell is left as it is. *)
Definition clear_if (id : nat) (x : cell) : cell :=
  if bool_decide (cell_icon x = Some id) then clear x else x.

(** A state transformer that applies [g] to the cells selected by [P] and
    leaves every other cell as it is. *)
Definition cellwise (g : cell -> cell) (T : desk -> desk) (P : Z -> Z -> bool) : Prop :=
  forall d c r, getCell (T d) c r =
                if P c r then option_map g (getCell d c r) else getCell d c r.

(** ** Loop lemmas *)

Section Loops.

Lemma zrange_In (lo : Z) (n : nat) (x : Z) :
  In x (zrange lo n) <-> lo <= x < lo + Z.of_nat n.
Proof.
  revert lo; induction n as [|n IH]; intros lo; simpl.
  - lia.
  - rewrite IH. lia.
Qed.

Lemma all_range_true (lo : Z) (n : nat) (f : Z -> bool) :
  all_range lo n f = true <-> forall i, lo <= i < lo + Z.of_nat n -> f i = true.
Proof.
  revert lo; induction n as [|n IH]; intros lo; simpl.
  - split; [intros _ i Hi; lia | reflexivity].
  - rewrite andb_true_iff, IH. split.
    + intros [H0 H1] i Hi.
      destruct (Z.eq_dec i lo) as [->|Hne]; [exact H0 | apply H1; lia].
    + intros H. split; [apply H; lia | intros i Hi; apply H; lia].
Qed.

Lemma find_range_None {A} (lo : Z) (n : nat) (f : Z -> option A) :
  find_range lo n f = None <-> forall i, lo <= i < lo + Z.of_nat n -> f i = None.
Proof.
  revert lo; induction n as [|n IH]; intros lo; simpl.
  - split; [intros _ i Hi; lia | reflexivity].
  - destruct (f lo) as [a|] eqn:Ef.
    + split; [discriminate | intros H; rewrite H in Ef; [discriminate | lia]].
    + rewrite IH. split.
      * intros H i Hi. destruct (Z.eq_dec i lo) as [->|Hne]; [exact Ef | apply H; lia].
      * intros H i Hi. apply H; lia.
Qed.

Lemma find_range_Some {A} (lo : Z) (n : nat) (f : Z -> option A) (a : A) :
  find_range lo n f = Some a ->
  exists i, lo <= i < lo + Z.of_nat n /\ f i = Some a /\
            forall j, lo <= j < i -> f j = None.
Proof.
  revert lo; induction n as [|n IH]; intros lo; simpl; [discriminate|].
  destruct (f lo) as [b|] eqn:Ef.
  - intros [= <-]. exists lo. split; [lia|]. split; [exact Ef | intros j Hj; lia].
  - intros H. destruct (IH (lo + 1) H) as (i & Hi & Hfi & Hbefore).
    exists i. split; [lia|]. split; [exact Hfi|].
    intros j Hj. destruct (Z.eq_dec j lo) as [->|Hne]; [exact Ef | apply Hbefore; lia].
Qed.

Lemma for_range_invariant {St} (Q : St -> Prop) (lo : Z) (n : nat)
    (body : Z -> St -> St) (s : St) :
  (forall i s, Q s -> Q (body i s)) -> Q s -> Q (for_range lo n body s).
Proof.
  intros Hb. revert lo s; induction n as [|n IH]; intros lo s Hs; simpl.
  - exact Hs.
  - apply IH, Hb, Hs.
Qed.

Lemma for_range_id {St} (lo : Z) (n : nat) (body : Z -> St -> St) (s : St) :
  (forall i, lo <= i < lo + Z.of_nat n -> body i s = s) ->
  for_range lo n body s = s.
Proof.
  revert lo; induction n as [|n IH]; intros lo Hb; simpl; [reflexivity|].
  rewrite (Hb lo) by lia. apply IH. intros i Hi. apply Hb. lia.
Qed.

Lemma existsb2_zrange (k m : nat) (f : Z -> Z -> bool) :
  existsb (fun i => existsb (fun j => f i j) (zrange 0 m)) (zrange 0 k) = true <->
  exists i j, 0 <= i < Z.of_nat k /\ 0 <= j < Z.of_nat m /\ f i j = true.
Proof.
  rewrite existsb_exists. split.
  - intros (i & Hi & Hj). apply existsb_exists in Hj as (j & Hj & Hf).
    apply zrange_In in Hi, Hj. exists i, j. split; [lia|]. split; [lia|]. exact Hf.
  - intros (i & j & Hi & Hj & Hf). exists i. split; [apply zrange_In; lia|].
    apply existsb_exists. exists j. split; [apply zrange_In; lia | exact Hf].
Qed.

End Loops.

(** ** Cell updates *)

Section CellUpdates.

Lemma getCell_Some_bounds (d : desk) (col row : Z) (x : cell) :
  getCell d col row = Some x -> 0 <= col /\ 0 <= row.
Proof.
  unfold getCell. destruct (_cells d); [|discriminate].
  destruct (col <? 0) eqn:E1; [discriminate|].
  destruct (row <? 0) eqn:E2; [discriminate|].
  intros _. apply Z.ltb_ge in E1, E2. lia.
Qed.

Lemma getCell_set_cell (d : desk) (col row : Z) (g : cell -> cell) (x : cell) (c r : Z) :
  getCell d col row = Some x ->
  getCell (set_cell d col row g) c r =
  if (c =? col) && (r =? row) then Some (g x) else getCell d c r.
Proof.
  intros H. pose proof (getCell_Some_bounds _ _ _ _ H) as [Hc Hr].
  revert H. unfold getCell, set_cell.
  destruct (_cells d) as [cs|]; [|discriminate]. simpl.
  replace ((col <? 0) || (row <? 0)) with false
    by (symmetry; apply orb_false_iff; split; apply Z.ltb_ge; lia).
  destruct (cs !! Z.to_nat col) as [column|] eqn:Ecol; [|discriminate].
  intros Hx.
  destruct (Z.eqb_spec c col) as [->|Hne1]; destruct (Z.eqb_spec r row) as [->|Hne2];
    simpl.
  - replace ((col <? 0) || (row <? 0)) with false
      by (symmetry; apply orb_false_iff; split; apply Z.ltb_ge; lia).
    rewrite list_lookup_alter_eq, Ecol. simpl.
    rewrite list_lookup_alter_eq, Hx. reflexivity.
  - destruct ((col <? 0) || (r <? 0)) eqn:Eneg; [reflexivity|].
    apply orb_false_iff in Eneg as [_ Eneg]. apply Z.ltb_ge in Eneg.
    rewrite list_lookup_alter_eq, Ecol. simpl.
    rewrite list_lookup_alter_ne by lia. reflexivity.
  - destruct ((c <? 0) || (row <? 0)) eqn:Eneg; [reflexivity|].
    apply orb_false_iff in Eneg as [Eneg _]. apply Z.ltb_ge in Eneg.
    rewrite list_lookup_alter_ne by lia. reflexivity.
  - destruct ((c <? 0) || (r <? 0)) eqn:Eneg; [reflexivity|].
    apply orb_false_iff in Eneg as [Eneg _]. apply Z.ltb_ge in Eneg.
    rewrite list_lookup_alter_ne by lia. reflexivity.
Qed.

Lemma set_cell_settings (d : desk) (col row : Z) (g : cell -> cell) :
  grid_columns (set_cell d col row g) = grid_columns d /\
  grid_rows (set_cell d col row g) = grid_rows d /\
  (_cells (set_cell d col row g) = None <-> _cells d = None).
Proof. unfold set_cell. destruct (_cells d) eqn:E; unfold with_cells; simpl; repeat split; intros; congruence. Qed.

Lemma place_step_cellwise (ic : icon) (c0 r0 : Z) :
  cellwise (mark ic) (place_step ic c0 r0) (fun c r => (c =? c0) && (r =? r0)).
Proof.
  intros d c r. unfold place_step.
  destruct (getCell d c0 r0) as [x|] eqn:E.
  - rewrite (getCell_set_cell _ _ _ _ x) by exact E.
    destruct (Z.eqb_spec c c0) as [->|]; destruct (Z.eqb_spec r r0) as [->|];
      simpl; rewrite ?E; reflexivity.
  - destruct (Z.eqb_spec c c0) as [->|]; destruct (Z.eqb_spec r r0) as [->|];
      simpl; rewrite ?E; reflexivity.
Qed.

Lemma clear_if_match (id : nat) (x : cell) :
  cell_icon x = Some id -> clear_if id x = clear x.
Proof. intros H. unfold clear_if. rewrite bool_decide_eq_true_2 by exact H. reflexivity. Qed.

Lemma clear_if_other (id : nat) (x : cell) :
  cell_icon x <> Some id -> clear_if id x = x.
Proof. intros H. unfold clear_if. rewrite bool_decide_eq_false_2 by exact H. reflexivity. Qed.

Lemma release_step_cellwise (ic : icon) (c0 r0 : Z) :
  cellwise (clear_if (icon_id ic)) (release_step ic c0 r0)
           (fun c r => (c =? c0) && (r =? r0)).
Proof.
  intros d c r. unfold release_step.
  destruct (getCell d c0 r0) as [x|] eqn:E.
  - destruct (decide (cell_icon x = Some (icon_id ic))) as [Hm|Hm].
    + rewrite bool_decide_eq_true_2 by exact Hm.
      rewrite (getCell_set_cell _ _ _ _ x) by exact E.
      destruct (Z.eqb_spec c c0) as [->|]; destruct (Z.eqb_spec r r0) as [->|];
        cbn [andb option_map]; rewrite ?E; cbn [option_map]; try reflexivity.
      rewrite clear_if_match by exact Hm. reflexivity.
    + rewrite bool_decide_eq_false_2 by exact Hm.
      destruct (Z.eqb_spec c c0) as [->|]; destruct (Z.eqb_spec r r0) as [->|];
        cbn [andb option_map]; rewrite ?E; cbn [option_map]; try reflexivity.
      rewrite clear_if_other by exact Hm. reflexivity.
  - destruct (Z.eqb_spec c c0) as [->|]; destruct (Z.eqb_spec r r0) as [->|];
      cbn [andb option_map]; rewrite ?E; reflexivity.
Qed.

Lemma for_range_cellwise (g : cell -> cell) (body : Z -> desk -> desk)
    (P : Z -> Z -> Z -> bool) (lo : Z) (n : nat) :
  (forall x, g (g x) = g x) ->
  (forall i, cellwise g (body i) (P i)) ->
  cellwise g (for_range lo n body)
           (fun c r => existsb (fun i => P i c r) (zrange lo n)).
Proof.
  intros Hg Hb. revert lo; induction n as [|n IH]; intros lo d c r; cbn [for_range zrange existsb].
  - reflexivity.
  - unfold cellwise in IH, Hb. rewrite IH, (Hb lo d c r).
    destruct (P lo c r), (existsb (fun i => P i c r) (zrange (lo + 1) n));
      simpl; destruct (getCell d c r); simpl; rewrite ?Hg; reflexivity.
Qed.

Lemma mark_idem (ic : icon) (x : cell) : mark ic (mark ic x) = mark ic x.
Proof. reflexivity. Qed.

Lemma clear_if_idem (id : nat) (x : cell) : clear_if id (clear_if id x) = clear_if id x.
Proof.
  destruct (decide (cell_icon x = Some id)) as [H|H].
  - rewrite (clear_if_match _ _ H). apply clear_if_other. simpl. discriminate.
  - rewrite (clear_if_other _ _ H). apply clear_if_other, H.
Qed.

End CellUpdates.

(** [(col, row)] lies in the placement of footprint [fp] at anchor
    [(col0, row0)]. *)
Definition in_placement (col0 row0 : Z) (fp : footprint) (col row : Z) : bool :=
  (col0 <=? col) && (col <? col0 + fp_cols fp) &&
  (row0 <=? row) && (row <? row0 + fp_rows fp).

(** [(col, row)] is visited by the loops of [removeIconFromCells]. *)
Definition in_settings (d : desk) (col row : Z) : bool :=
  (0 <=? col) && (col <? grid_columns d) && (0 <=? row) && (row <? grid_rows d).

(** ** Whole operations, cell by cell *)

Section Operations.

Lemma Z_of_to_nat (k : Z) : Z.of_nat (Z.to_nat k) = Z.max 0 k.
Proof. lia. Qed.

Lemma rect_pred (col0 row0 k m col row : Z) (f : Z -> Z -> bool) :
  (forall i j, f i j = (col =? col0 + i) && (row =? row0 + j)) ->
  existsb (fun i => existsb (fun j => f i j) (zrange 0 (Z.to_nat m))) (zrange 0 (Z.to_nat k)) =
  (col0 <=? col) && (col <? col0 + k) && (row0 <=? row) && (row <? row0 + m).
Proof.
  intros Hf. apply Bool.eq_iff_eq_true. rewrite existsb2_zrange, !Z_of_to_nat.
  rewrite !andb_true_iff, Z.leb_le, Z.ltb_lt, Z.leb_le, Z.ltb_lt. split.
  - intros (i & j & Hi & Hj & H). rewrite Hf, andb_true_iff, !Z.eqb_eq in H. lia.
  - intros H. exists (col - col0), (row - row0).
    split; [lia|]. split; [lia|]. rewrite Hf, andb_true_iff, !Z.eqb_eq. lia.
Qed.

Lemma fst_placeIconInCell (ic : icon) (col row : Z) (d : desk) :
  fst (placeIconInCell ic col row d) =
  for_range 0 (Z.to_nat (fp_cols (iconCellSize ic))) (fun dc d =>
    for_range 0 (Z.to_nat (fp_rows (iconCellSize ic))) (fun dr d =>
      place_step ic (col + dc) (row + dr) d) d) d.
Proof. unfold placeIconInCell. destruct getCell; reflexivity. Qed.

Lemma getCell_place (ic : icon) (col row : Z) (d : desk) (c r : Z) :
  getCell (fst (placeIconInCell ic col row d)) c r =
  if in_placement col row (iconCellSize ic) c r
  then option_map (mark ic) (getCell d c r) else getCell d c r.
Proof.
  rewrite fst_placeIconInCell.
  set (m := Z.to_nat (fp_rows (iconCellSize ic))).
  pose proof (for_range_cellwise (mark ic)
    (fun dc => for_range 0 m (fun dr => place_step ic (col + dc) (row + dr)))
    (fun dc c r => existsb (fun dr => (c =? col + dc) && (r =? row + dr)) (zrange 0 m))
    0 (Z.to_nat (fp_cols (iconCellSize ic))) (mark_idem ic)) as Hc.
  unfold cellwise in Hc. rewrite Hc.
  - unfold in_placement, m. erewrite rect_pred by (intros; reflexivity). reflexivity.
  - intros dc. apply for_range_cellwise; [apply mark_idem | intros dr; apply place_step_cellwise].
Qed.

Lemma getCell_release (ic : icon) (d : desk) (c r : Z) :
  getCell (removeIconFromCells ic d) c r =
  if in_settings d c r
  then option_map (clear_if (icon_id ic)) (getCell d c r) else getCell d c r.
Proof.
  unfold removeIconFromCells. destruct (_cells d) eqn:E.
  - pose proof (for_range_cellwise (clear_if (icon_id ic))
      (fun col => for_range 0 (Z.to_nat (grid_rows d)) (fun row => release_step ic col row))
      (fun col c r => existsb (fun row => (c =? col) && (r =? row))
                              (zrange 0 (Z.to_nat (grid_rows d))))
      0 (Z.to_nat (grid_columns d)) (clear_if_idem (icon_id ic))) as Hc.
    unfold cellwise in Hc. rewrite Hc.
    + unfold in_settings. erewrite (rect_pred 0 0) by (intros; rewrite !Z.add_0_l; reflexivity).
      rewrite !Z.add_0_l. reflexivity.
    + intros col. apply for_range_cellwise;
        [apply clear_if_idem | intros row; apply release_step_cellwise].
  - unfold getCell. rewrite E. destruct (in_settings d c r); reflexivity.
Qed.

Lemma place_settings (ic : icon) (col row : Z) (d : desk) :
  let d' := fst (placeIconInCell ic col row d) in
  grid_columns d' = grid_columns d /\ grid_rows d' = grid_rows d /\
  (_cells d' = None <-> _cells d = None).
Proof.
  simpl. rewrite fst_placeIconInCell.
  apply (for_range_invariant (fun s => grid_columns s = grid_columns d /\
           grid_rows s = grid_rows d /\ (_cells s = None <-> _cells d = None))).
  - intros i s Hs. apply for_range_invariant; [|exact Hs].
    intros j s' Hs'. unfold place_step. destruct (getCell s' _ _); [|exact Hs'].
    destruct (set_cell_settings s' (col + i) (row + j) (mark ic)) as (H1 & H2 & H3).
    rewrite H1, H2, H3. exact Hs'.
  - split; [reflexivity|]. split; [reflexivity|]. tauto.
Qed.

Lemma release_settings (ic : icon) (d : desk) :
  let d' := removeIconFromCells ic d in
  grid_columns d' = grid_columns d /\ grid_rows d' = grid_rows d /\
  (_cells d' = None <-> _cells d = None).
Proof.
  simpl. unfold removeIconFromCells. destruct (_cells d) eqn:E.
  - apply (for_range_invariant (fun s => grid_columns s = grid_columns d /\
           grid_rows s = grid_rows d /\ (_cells s = None <-> Some l = None))).
    + intros i s Hs. apply for_range_invariant; [|exact Hs].
      intros j s' Hs'. unfold release_step. destruct (getCell s' _ _); [|exact Hs'].
      destruct (bool_decide _); [|exact Hs'].
      destruct (set_cell_settings s' i j clear) as (H1 & H2 & H3).
      rewrite H1, H2, H3. exact Hs'.
    + split; [reflexivity|]. split; [reflexivity|]. rewrite E. tauto.
  - rewrite E. tauto.
Qed.

End Operations.

(** ** Building, shape and freedom *)

Ltac zbool :=
  repeat match goal with
  | |- context [Z.ltb ?a ?b] => destruct (Z.ltb_spec a b)
  | |- context [Z.leb ?a ?b] => destruct (Z.leb_spec a b)
  | |- context [Nat.ltb ?a ?b] => destruct (Nat.ltb_spec a b)
  end.

Section Shape.

Lemma lookup_map_zrange {A} (f : Z -> A) (lo : Z) (n i : nat) :
  map f (zrange lo n) !! i = if (i <? n)%nat then Some (f (lo + Z.of_nat i)) else None.
Proof.
  revert lo i; induction n as [|n IH]; intros lo i; [reflexivity|].
  destruct i as [|i]; simpl.
  - rewrite Z.add_0_r. reflexivity.
  - change ((S i <? S n)%nat) with ((i <? n)%nat).
    rewrite IH. destruct (i <? n)%nat; [|reflexivity].
    do 2 f_equal. lia.
Qed.

(** The cell built by [_buildCellGrid] at [(col, row)]. *)
Definition fresh_cell (d : desk) (col row : Z) : cell :=
  {| cell_col := col; cell_row := row;
     cell_x := col * cell_w d; cell_y := row * cell_h d;
     cell_width := cell_w d; cell_height := cell_h d;
     cell_icon := None; cell_occupied := false |}.

Lemma getCell_build (d : desk) (c r : Z) :
  getCell (_buildCellGrid d) c r =
  if in_settings d c r then Some (fresh_cell d c r) else None.
Proof.
  unfold getCell, _buildCellGrid, in_settings. simpl.
  destruct (Z.ltb_spec c 0); destruct (Z.ltb_spec r 0); simpl;
    zbool; simpl; try reflexivity; try lia.
  all: rewrite lookup_map_zrange; zbool; simpl; try lia; try reflexivity.
  all: rewrite ?lookup_map_zrange; zbool; simpl; try lia; try reflexivity.
  unfold fresh_cell. replace (0 + Z.of_nat (Z.to_nat c)) with c by lia.
  replace (0 + Z.of_nat (Z.to_nat r)) with r by lia. reflexivity.
Qed.

Lemma is_Some_option_map (g : cell -> cell) (o : option cell) :
  is_Some (option_map g o) <-> is_Some o.
Proof. destruct o; simpl; split; intros [? H]; try discriminate; eauto. Qed.

Lemma wf_build (d : desk) : wf (_buildCellGrid d).
Proof.
  right. intros c r. rewrite getCell_build. unfold in_settings. simpl.
  zbool; simpl; split; intros Hs; try lia; try (destruct Hs; discriminate); eauto.
Qed.

Lemma wf_place (ic : icon) (col row : Z) (d : desk) :
  wf d -> wf (fst (placeIconInCell ic col row d)).
Proof.
  destruct (place_settings ic col row d) as (H1 & H2 & H3).
  intros [HN|Hwf]; [left; apply H3, HN | right].
  intros c r. rewrite getCell_place, H1, H2, <- Hwf.
  destruct (in_placement _ _ _ _ _); [apply is_Some_option_map | reflexivity].
Qed.

Lemma wf_release (ic : icon) (d : desk) :
  wf d -> wf (removeIconFromCells ic d).
Proof.
  destruct (release_settings ic d) as (H1 & H2 & H3).
  intros [HN|Hwf]; [left; apply H3, HN | right].
  intros c r. rewrite getCell_release, H1, H2, <- Hwf.
  destruct (in_settings _ _ _); [apply is_Some_option_map | reflexivity].
Qed.

(** On a well-formed grid the cells are exactly the ones the loops of
    [removeIconFromCells] visit. *)
Lemma wf_in_settings (d : desk) (c r : Z) (x : cell) :
  wf d -> getCell d c r = Some x -> in_settings d c r = true.
Proof.
  intros [HN|Hwf] Hx.
  - unfold getCell in Hx. rewrite HN in Hx. discriminate.
  - assert (Hb : is_Some (getCell d c r)) by (rewrite Hx; eauto).
    apply Hwf in Hb. unfold in_settings. zbool; simpl; try reflexivity; lia.
Qed.

Lemma cell_test_true (o : option cell) (ex : option nat) :
  match o with
  | None => false
  | Some c => negb (cell_occupied c && negb (bool_decide (cell_icon c = ex)))
  end = true <->
  exists x, o = Some x /\ (cell_occupied x = false \/ cell_icon x = ex).
Proof.
  destruct o as [x|]; split.
  - intros H. exists x. split; [reflexivity|].
    destruct (cell_occupied x); [right | left; reflexivity].
    simpl in H. destruct (bool_decide (cell_icon x = ex)) eqn:E; [|discriminate].
    apply bool_decide_eq_true in E. exact E.
  - intros (y & [= <-] & [H|H]).
    + rewrite H. reflexivity.
    + rewrite bool_decide_eq_true_2 by exact H. destruct (cell_occupied x); reflexivity.
  - discriminate.
  - intros (y & H & _). discriminate.
Qed.

Lemma areCellsFree_iff (d : desk) (col row : Z) (fp : footprint) (ex : option nat) :
  1 <= fp_cols fp -> 1 <= fp_rows fp ->
  areCellsFree d col row fp ex = true <->
  forall dc dr, 0 <= dc < fp_cols fp -> 0 <= dr < fp_rows fp ->
    exists x, getCell d (col + dc) (row + dr) = Some x /\
              (cell_occupied x = false \/ cell_icon x = ex).
Proof.
  intros Hc Hr. unfold areCellsFree, or_one.
  rewrite (proj2 (Z.eqb_neq (fp_cols fp) 0)) by lia.
  rewrite (proj2 (Z.eqb_neq (fp_rows fp) 0)) by lia.
  rewrite all_range_true. split.
  - intros H dc dr Hdc Hdr.
    assert (H1 := H dc ltac:(rewrite Z_of_to_nat; lia)).
    rewrite all_range_true in H1.
    apply cell_test_true, H1. rewrite Z_of_to_nat. lia.
  - intros H dc Hdc. rewrite all_range_true. intros dr Hdr.
    apply cell_test_true, H; rewrite Z_of_to_nat in *; lia.
Qed.

Lemma areCellsFree_anchor (d : desk) (col row : Z) (fp : footprint) (ex : option nat) :
  1 <= fp_cols fp -> 1 <= fp_rows fp ->
  areCellsFree d col row fp ex = true -> is_Some (getCell d col row).
Proof.
  intros Hc Hr H0. pose proof (proj1 (areCellsFree_iff d col row fp ex Hc Hr) H0) as H.
  destruct (H 0 0) as (x & Hx & _); [lia|lia|].
  rewrite !Z.add_0_r in Hx. rewrite Hx. eauto.
Qed.

End Shape.

(** ** Searches *)

(** First [Some] produced by [f] along a list. *)
Fixpoint find_map {A B} (f : A -> option B) (l : list A) : option B :=
  match l with
  | [] => None
  | x :: l' => match f x with Some b => Some b | None => find_map f l' end
  end.

Section Search.

Lemma find_range_find_map {B : Type} (lo : Z) (n : nat) (f : Z -> option B) :
  find_range lo n f = find_map f (zrange lo n).
Proof.
  revert lo; induction n as [|n IH]; intros lo; simpl; [reflexivity|].
  rewrite IH. reflexivity.
Qed.

Lemma find_map_app {A B : Type} (f : A -> option B) (l1 l2 : list A) :
  find_map f (l1 ++ l2) =
  match find_map f l1 with Some b => Some b | None => find_map f l2 end.
Proof. induction l1 as [|x l1 IH]; simpl; [reflexivity|]. destruct (f x); auto. Qed.

Lemma find_map_flat_map {A B C : Type} (f : B -> option C) (g : A -> list B) (l : list A) :
  find_map f (flat_map g l) = find_map (fun x => find_map f (g x)) l.
Proof.
  induction l as [|x l IH]; simpl; [reflexivity|].
  rewrite find_map_app, IH. reflexivity.
Qed.

Lemma find_map_map {A B C : Type} (f : B -> option C) (h : A -> B) (l : list A) :
  find_map f (map h l) = find_map (fun x => f (h x)) l.
Proof. induction l as [|x l IH]; simpl; [reflexivity|]. rewrite IH. reflexivity. Qed.

Lemma find_map_filter {A B : Type} (f : A -> option B) (p : A -> bool) (l : list A) :
  find_map f (List.filter p l) = find_map (fun x => if p x then f x else None) l.
Proof.
  induction l as [|x l IH]; simpl; [reflexivity|].
  destruct (p x); simpl; rewrite ?IH; reflexivity.
Qed.

Lemma find_map_ext_in {A B : Type} (f g : A -> option B) (l : list A) :
  (forall x, In x l -> f x = g x) -> find_map f l = find_map g l.
Proof.
  induction l as [|x l IH]; intros H; simpl; [reflexivity|].
  rewrite (H x) by (left; reflexivity). rewrite IH by (intros y Hy; apply H; right; exact Hy).
  reflexivity.
Qed.

Lemma find_as_find_map {A : Type} (p : A -> bool) (l : list A) :
  List.find p l = find_map (fun x => if p x then Some x else None) l.
Proof. induction l as [|x l IH]; simpl; [reflexivity|]. destruct (p x); auto. Qed.

Lemma list_prod_flat_map {A B : Type} (l1 : list A) (l2 : list B) :
  list_prod l1 l2 = flat_map (fun x => map (fun y => (x, y)) l2) l1.
Proof. induction l1 as [|x l1 IH]; simpl; [reflexivity|]. rewrite IH. reflexivity. Qed.

End Search.

Section FirstFit.

Lemma free_anchor_in_range (d : desk) (col row : Z) (fp : footprint) (ex : option nat) :
  wf d -> 1 <= fp_cols fp -> 1 <= fp_rows fp ->
  areCellsFree d col row fp ex = true ->
  0 <= col < grid_columns d /\ 0 <= row < grid_rows d.
Proof.
  intros Hwf Hc Hr H. apply areCellsFree_anchor in H; [|exact Hc|exact Hr].
  destruct H as [x Hx].
  pose proof (wf_in_settings d col row x Hwf Hx) as Hin.
  unfold in_settings in Hin. revert Hin. zbool; simpl; intros Hin; try discriminate; lia.
Qed.

Lemma findFreeCell_Some (d : desk) (fp : footprint) (ex : option nat) (col row : Z) :
  findFreeCell d fp ex = Some (col, row) ->
  0 <= row < grid_rows d /\ 0 <= col < grid_columns d /\
  areCellsFree d col row fp ex = true /\
  (forall r' c', 0 <= r' < row -> 0 <= c' < grid_columns d ->
                 areCellsFree d c' r' fp ex = false) /\
  (forall c', 0 <= c' < col -> areCellsFree d c' row fp ex = false).
Proof.
  unfold findFreeCell. intros H.
  apply find_range_Some in H as (row0 & Hrow0 & Hin & Hbefore).
  apply find_range_Some in Hin as (col0 & Hcol0 & Hf & Hleft).
  destruct (areCellsFree d col0 row0 fp ex) eqn:Efree; [|discriminate].
  injection Hf as <- <-. rewrite Z_of_to_nat in Hrow0, Hcol0.
  split; [lia|]. split; [lia|]. split; [exact Efree|]. split.
  - intros r' c' Hr' Hc'. specialize (Hbefore r' ltac:(lia)).
    rewrite find_range_None in Hbefore.
    specialize (Hbefore c' ltac:(rewrite Z_of_to_nat; lia)).
    destruct (areCellsFree d c' r' fp ex); [discriminate | reflexivity].
  - intros c' Hc'. specialize (Hleft c' ltac:(lia)).
    destruct (areCellsFree d c' row0 fp ex); [discriminate | reflexivity].
Qed.

Lemma findFreeCell_None (d : desk) (fp : footprint) (ex : option nat) :
  findFreeCell d fp ex = None <->
  forall row col, 0 <= row < grid_rows d -> 0 <= col < grid_columns d ->
                  areCellsFree d col row fp ex = false.
Proof.
  unfold findFreeCell. rewrite find_range_None. split.
  - intros H row col Hr Hc. specialize (H row ltac:(rewrite Z_of_to_nat; lia)).
    rewrite find_range_None in H. specialize (H col ltac:(rewrite Z_of_to_nat; lia)).
    destruct (areCellsFree d col row fp ex); [discriminate | reflexivity].
  - intros H row Hr. apply find_range_None. intros col Hc.
    rewrite Z_of_to_nat in Hr, Hc. rewrite H by lia. reflexivity.
Qed.

End FirstFit.

Section Nearest.

Lemma findNearestFreeCell_refines (d : desk) (tc tr : Z) (fp : footprint) (ex : option nat) :
  findNearestFreeCell d tc tr fp ex = findNearestFree_spec d tc tr fp ex.
Proof.
  unfold findNearestFreeCell, findNearestFree_spec.
  destruct (areCellsFree d tc tr fp ex); [reflexivity|].
  rewrite find_as_find_map, find_map_flat_map, find_range_find_map.
  apply find_map_ext_in. intros radius Hr. apply zrange_In in Hr.
  unfold maxRadius in Hr. simpl in Hr.
  rewrite find_map_map. unfold ring_offsets.
  rewrite find_map_filter, list_prod_flat_map, find_map_flat_map, find_range_find_map.
  apply find_map_ext_in. intros dc Hdc. apply zrange_In in Hdc.
  rewrite Z_of_to_nat in Hdc.
  rewrite find_map_map, find_range_find_map.
  apply find_map_ext_in. intros dr Hdr. apply zrange_In in Hdr.
  rewrite Z_of_to_nat in Hdr. cbn beta iota.
  destruct (Z.eqb_spec (Z.abs dc) radius); destruct (Z.eqb_spec (Z.abs dr) radius);
    destruct (Z.eqb_spec (Z.max (Z.abs dc) (Z.abs dr)) radius); simpl;
    try (exfalso; lia); try reflexivity.
  all: zbool; simpl; try (exfalso; lia); reflexivity.
Qed.

Lemma findNearestFreeCell_nonneg (d : desk) (tc tr : Z) (fp : footprint) (ex : option nat)
    (col row : Z) :
  1 <= fp_cols fp -> 1 <= fp_rows fp ->
  findNearestFreeCell d tc tr fp ex = Some (col, row) -> 0 <= col /\ 0 <= row.
Proof.
  intros Hc Hr. rewrite findNearestFreeCell_refines. unfold findNearestFree_spec.
  destruct (areCellsFree d tc tr fp ex) eqn:E.
  - intros [= <- <-]. apply areCellsFree_anchor in E as [x Hx]; [|exact Hc|exact Hr].
    exact (getCell_Some_bounds _ _ _ _ Hx).
  - intros H. apply find_some in H as [_ H]. simpl in H.
    rewrite !andb_true_iff, !Z.leb_le in H. lia.
Qed.

End Nearest.

Section Release.

Lemma clear_if_not_id (id : nat) (y : cell) : cell_icon (clear_if id y) <> Some id.
Proof.
  destruct (decide (cell_icon y = Some id)) as [H|H].
  - rewrite clear_if_match by exact H. simpl. discriminate.
  - rewrite clear_if_other by exact H. exact H.
Qed.

Lemma release_noop (ic : icon) (d : desk) :
  (forall c r x, in_settings d c r = true -> getCell d c r = Some x ->
                 cell_icon x <> Some (icon_id ic)) ->
  removeIconFromCells ic d = d.
Proof.
  intros H. unfold removeIconFromCells. destruct (_cells d); [|reflexivity].
  apply for_range_id. intros col Hcol. apply for_range_id. intros row Hrow.
  rewrite Z_of_to_nat in Hcol, Hrow.
  unfold release_step. destruct (getCell d col row) as [x|] eqn:E; [|reflexivity].
  rewrite bool_decide_eq_false_2; [reflexivity|].
  apply (H col row x); [|exact E].
  unfold in_settings. zbool; simpl; try reflexivity; lia.
Qed.

End Release.

Section Invariant.

(** Per-cell invariant: occupied iff it references an icon. *)
Definition cell_consistent (x : cell) : Prop :=
  cell_occupied x = true <-> cell_icon x <> None.

Lemma reachable_consistent (d : desk) :
  reachable d ->
  forall c r x, getCell d c r = Some x -> cell_consistent x.
Proof.
  induction 1 as [cols rows w h | d cols rows w h _ _ | d ic col row _ IH | d ic _ IH];
    intros c r x Hx.
  - unfold getCell in Hx. discriminate.
  - rewrite getCell_build in Hx. destruct (in_settings _ c r); [|discriminate].
    injection Hx as <-. unfold cell_consistent. simpl. split; [discriminate | tauto].
  - rewrite getCell_place in Hx.
    destruct (in_placement col row (iconCellSize ic) c r).
    + destruct (getCell d c r); [|discriminate]. injection Hx as <-.
      unfold cell_consistent. simpl. split; [discriminate | reflexivity].
    + exact (IH c r x Hx).
  - rewrite getCell_release in Hx. destruct (in_settings d c r).
    + destruct (getCell d c r) as [y|] eqn:Ey; [|discriminate]. injection Hx as <-.
      destruct (decide (cell_icon y = Some (icon_id ic))) as [Hm|Hm].
      * rewrite clear_if_match by exact Hm. unfold cell_consistent. simpl.
        split; [discriminate | tauto].
      * rewrite clear_if_other by exact Hm. exact (IH c r y Ey).
    + exact (IH c r x Hx).
Qed.

End Invariant.

(** ** Callers of the grid: pixels, dragging, loading, file removal *)

(** [getCellAtPixel(x, y)]. Pixel coordinates are integers and the cell
    size is positive (as [_getCellWidth]/[_getCellHeight] return when a
    monitor exists), so JS [Math.floor(x / cellWidth)] is [Z.div]. *)
Definition getCellAtPixel (d : desk) (x y : Z) : option cell :=
  let cellWidth := cell_w d in
  let cellHeight := cell_h d in
  getCell d (Z.div x cellWidth) (Z.div y cellHeight).

(** JS [Math.round(x / w)] for an integer [x] and a positive [w]:
    [floor(x / w + 1/2) = floor((2x + w) / 2w)]. *)
Definition round_div (x w : Z) : Z := Z.div (2 * x + w) (2 * w).

(** [this._dragIcon._cellSize?.cols || 1] and the same for [rows]. *)
Definition drag_cols (ic : icon) : Z :=
  match icon_cellSize ic with Some fp => or_one (fp_cols fp) | None => 1 end.
Definition drag_rows (ic : icon) : Z :=
  match icon_cellSize ic with Some fp => or_one (fp_rows fp) | None => 1 end.

(** [_canIconFitAt(col, row, cols, rows, draggedIcon)] *)
Definition _canIconFitAt (d : desk) (col row cols rows : Z) (draggedIcon : nat) : bool :=
  let gridCols := grid_columns d in
  let gridRows := grid_rows d in
  if (col <? 0) || (row <? 0) || (gridCols <? col + cols) || (gridRows <? row + rows)
  then false
  else
    all_range col (Z.to_nat (col + cols - col)) (fun c =>
      all_range row (Z.to_nat (row + rows - row)) (fun r =>
        match getCell d c r with
        | None => false
        | Some cell =>
            (* if (cell.icon && cell.icon !== draggedIcon) return false *)
            negb (match cell_icon cell with Some _ => true | None => false end &&
                  negb (bool_decide (cell_icon cell = Some draggedIcon)))
        end)).

(** The dragging branch of [_endDrag()], given [this._canDrop] and
    [this._dropTargetCol]/[this._dropTargetRow] ([None] when undefined) as
    the last [_updateDropIndicator] left them, and the icon's pixel position
    when the drag started. On a valid drop the icon is removed from its
    cells and, once the easing animation completes ([onComplete]), placed
    at the target; the result is the state after that callback. *)
Definition _endDrag (d : desk) (ic : icon) (canDrop : bool) (target : option (Z * Z))
    (dragOriginalX dragOriginalY : Z) : desk :=
  let replace_original (d' : desk) :=
    match getCellAtPixel d' dragOriginalX dragOriginalY with
    | Some origCell => fst (placeIconInCell ic (cell_col origCell) (cell_row origCell) d')
    | None => d'
    end in
  match _cells d with
  | None => d
  | Some _ =>
      match canDrop, target with
      | true, Some (targetCol, targetRow) =>
          let d1 := removeIconFromCells ic d in
          match getCell d1 targetCol targetRow with
          | Some _ => fst (placeIconInCell ic targetCol targetRow d1)
          | None => replace_original d1
          end
      | _, _ => replace_original d
      end
  end.

(** An entry of [this._iconPositions]: [{ col, row }] or the old
    [{ x, y }] pixel format; absent fields are [None] ([undefined]). *)
Record savedPosition := mkSaved {
  saved_col : option Z; saved_row : option Z;
  saved_x : option Z; saved_y : option Z
}.

(** The target anchor read from the saved position, as in
    [_loadDesktopFiles], [_addTrashIcon] and [_addHomeIcon]. *)
Definition saved_target (d : desk) (saved : option savedPosition) : Z * Z :=
  match saved with
  | None => (0, 0)
  | Some s =>
      match saved_col s, saved_row s with
      | Some c, Some r => (c, r)
      | _, _ =>
          match saved_x s, saved_y s with
          | Some x, Some y => (Z.div x (cell_w d), Z.div y (cell_h d))
          | _, _ => (0, 0)
          end
      end
  end.

(** Placement of one icon when icons are loaded ([_loadDesktopFiles],
    [_addTrashIcon], [_addHomeIcon]): the new state and the position the
    icon is added to the grid at ([None]: not added). *)
Definition load_icon (d : desk) (ic : icon) (saved : option savedPosition)
  : desk * option (Z * Z) :=
  let iconCellSize := iconCellSize ic in
  let '(targetCol, targetRow) := saved_target d saved in
  let freeCell :=
    if areCellsFree d targetCol targetRow iconCellSize None
    then Some (targetCol, targetRow)
    else findFreeCell d iconCellSize None in
  match freeCell with
  | Some (col, row) =>
      match getCell d col row with
      | Some cell => (fst (placeIconInCell ic col row d), Some (cell_x cell, cell_y cell))
      | None => (d, None)
      end
  | None => (d, Some (0, 0))
  end.

(** [this._cells.length] ([None]: [this._cells] is null, reading it throws). *)
Definition cells_length (d : desk) : option Z :=
  match _cells d with
  | None => None
  | Some cs => Some (Z.of_nat (length cs))
  end.

(** [this._cells[c].length] ([None]: [this._cells[c]] is undefined). *)
Definition column_length (d : desk) (c : Z) : option Z :=
  match _cells d with
  | None => None
  | Some cs =>
      if c <? 0 then None
      else match cs !! Z.to_nat c with
           | None => None
           | Some column => Some (Z.of_nat (length column))
           end
  end.

(** Inner loop of the cell freeing in the file-removed handler of
    [_setupFileMonitor]; [n] counts the iterations with
    [r < row + cellSize.rows]. The boolean is [true] when a TypeError is
    thrown (caught by the handler's [try]). *)
Fixpoint free_rows (d : desk) (c r : Z) (n : nat) : desk * bool :=
  match n with
  | O => (d, false)
  | S n' =>
      match column_length d c with
      | None => (d, true)                      (* this._cells[c].length *)
      | Some len =>
          if r <? len then
            if r <? 0 then (d, true)           (* this._cells[c][r].occupied = ... *)
            else free_rows (set_cell d c r clear) c (r + 1) n'
          else (d, false)
      end
  end.

(** Outer loop; [n] counts the iterations with [c < col + cellSize.cols]. *)
Fixpoint free_cols (d : desk) (c row rows : Z) (n : nat) : desk * bool :=
  match n with
  | O => (d, false)
  | S n' =>
      match cells_length d with
      | None => (d, true)                      (* this._cells.length *)
      | Some len =>
          if c <? len then
            let '(d', threw) := free_rows d c row (Z.to_nat (row + rows - row)) in
            if threw then (d', true) else free_cols d' (c + 1) row rows n'
          else (d, false)
      end
  end.

(** The file-removed handler frees the cells under the removed icon from its
    pixel position [(iconX, iconY)] and [cellSize]: [col = Math.round(iconX /
    cellWidth)], [row = Math.round(iconY / cellHeight)]. *)
Definition free_icon_cells (d : desk) (cellSize : footprint) (iconX iconY : Z) : desk * bool :=
  let col := round_div iconX (cell_w d) in
  let row := round_div iconY (cell_h d) in
  free_cols d col row (fp_rows cellSize) (Z.to_nat (col + fp_cols cellSize - col)).

(** The entry [_reloadIcons] saves for an icon at pixel position [(x, y)]:
    [{ col: Math.round(icon.x / cellWidth), row: Math.round(icon.y / cellHeight) }]. *)
Definition reload_position (d : desk) (x y : Z) : savedPosition :=
  let cellWidth := cell_w d in
  let cellHeight := cell_h d in
  mkSaved (Some (round_div x cellWidth)) (Some (round_div y cellHeight)) None None.

(** The drop state of a drag: [this._canDrop] and
    [this._dropTargetCol]/[this._dropTargetRow] ([None]: undefined). *)
Record dropState := mkDrop { _canDrop : bool; _dropTarget : option (Z * Z) }.

(** [_createDropIndicator()]: [this._canDrop = false]; the target of an
    earlier drag is kept. *)
Definition _createDropIndicator (st : dropState) : dropState :=
  mkDrop false (_dropTarget st).

(** [_updateDropIndicator(stageX, stageY)] for the pointer cell
    [(targetCol, targetRow)] = [(Math.floor(relX / cellWidth),
    Math.floor(relY / cellHeight))]. *)
Definition _updateDropIndicator (d : desk) (ic : icon) (targetCol targetRow : Z)
    (st : dropState) : dropState :=
  let iconCols := drag_cols ic in
  let iconRows := drag_rows ic in
  let canFit := _canIconFitAt d targetCol targetRow iconCols iconRows (icon_id ic) in
  if canFit then mkDrop true (Some (targetCol, targetRow))
  else mkDrop false (_dropTarget st).

(** A drag: the indicator is created, then updated for each pointer cell. *)
Definition drag_session (d : desk) (ic : icon) (st0 : dropState) (moves : list (Z * Z))
  : dropState :=
  fold_left (fun st '(c, r) => _updateDropIndicator d ic c r st) moves
            (_createDropIndicator st0).

(** Every state the extension reaches has the shape of the data model. *)
Lemma reachable_wf (d : desk) : reachable d -> wf d.
Proof.
  induction 1.
  - left. reflexivity.
  - apply wf_build.
  - apply wf_place; assumption.
  - apply wf_release; assumption.
Qed.

Lemma iconCellSize_some (ic : icon) (fp : footprint) :
  icon_cellSize ic = Some fp -> iconCellSize ic = fp.
Proof. unfold iconCellSize. intros ->. reflexivity. Qed.

(** ** Geometry of the cells *)

Section Geometry.

Lemma set_cell_dims (d : desk) (col row : Z) (g : cell -> cell) :
  cell_w (set_cell d col row g) = cell_w d /\ cell_h (set_cell d col row g) = cell_h d.
Proof. unfold set_cell. destruct (_cells d); split; reflexivity. Qed.

Lemma place_dims (ic : icon) (col row : Z) (d : desk) :
  cell_w (fst (placeIconInCell ic col row d)) = cell_w d /\
  cell_h (fst (placeIconInCell ic col row d)) = cell_h d.
Proof.
  rewrite fst_placeIconInCell.
  apply (for_range_invariant (fun s => cell_w s = cell_w d /\ cell_h s = cell_h d));
    [|split; reflexivity].
  intros i s Hs. apply for_range_invariant; [|exact Hs].
  intros j s' Hs'. unfold place_step. destruct (getCell s' _ _); [|exact Hs'].
  destruct (set_cell_dims s' (col + i) (row + j) (mark ic)) as [H1 H2].
  rewrite H1, H2. exact Hs'.
Qed.

Lemma release_dims (ic : icon) (d : desk) :
  cell_w (removeIconFromCells ic d) = cell_w d /\
  cell_h (removeIconFromCells ic d) = cell_h d.
Proof.
  unfold removeIconFromCells. destruct (_cells d); [|split; reflexivity].
  apply (for_range_invariant (fun s => cell_w s = cell_w d /\ cell_h s = cell_h d));
    [|split; reflexivity].
  intros i s Hs. apply for_range_invariant; [|exact Hs].
  intros j s' Hs'. unfold release_step. destruct (getCell s' _ _); [|exact Hs'].
  destruct (bool_decide _); [|exact Hs'].
  destruct (set_cell_dims s' i j clear) as [H1 H2].
  rewrite H1, H2. exact Hs'.
Qed.

(** The cell stored at [(c, r)] knows its place and its rectangle. *)
Definition cell_geom (d : desk) (c r : Z) (x : cell) : Prop :=
  cell_col x = c /\ cell_row x = r /\
  cell_x x = c * cell_w d /\ cell_y x = r * cell_h d /\
  cell_width x = cell_w d /\ cell_height x = cell_h d.

Lemma clear_if_geom (id : nat) (x : cell) :
  cell_col (clear_if id x) = cell_col x /\ cell_row (clear_if id x) = cell_row x /\
  cell_x (clear_if id x) = cell_x x /\ cell_y (clear_if id x) = cell_y x /\
  cell_width (clear_if id x) = cell_width x /\ cell_height (clear_if id x) = cell_height x.
Proof.
  unfold clear_if. destruct (bool_decide _); simpl; repeat split.
Qed.

Lemma reachable_geom (d : desk) :
  reachable d -> forall c r x, getCell d c r = Some x -> cell_geom d c r x.
Proof.
  induction 1 as [cols rows w h | d cols rows w h _ _ | d ic col row _ IH | d ic _ IH];
    intros c r x Hx.
  - unfold getCell in Hx. discriminate.
  - rewrite getCell_build in Hx. destruct (in_settings _ c r); [|discriminate].
    injection Hx as <-. unfold cell_geom. simpl. repeat split.
  - destruct (place_dims ic col row d) as [Hw Hh].
    unfold cell_geom. rewrite Hw, Hh.
    rewrite getCell_place in Hx.
    destruct (in_placement col row (iconCellSize ic) c r).
    + destruct (getCell d c r) as [y|] eqn:Ey; [|discriminate]. injection Hx as <-.
      exact (IH c r y Ey).
    + exact (IH c r x Hx).
  - destruct (release_dims ic d) as [Hw Hh].
    unfold cell_geom. rewrite Hw, Hh.
    rewrite getCell_release in Hx. destruct (in_settings d c r).
    + destruct (getCell d c r) as [y|] eqn:Ey; [|discriminate]. injection Hx as <-.
      destruct (clear_if_geom (icon_id ic) y) as (G1 & G2 & G3 & G4 & G5 & G6).
      rewrite G1, G2, G3, G4, G5, G6. exact (IH c r y Ey).
    + exact (IH c r x Hx).
Qed.

Lemma div_in_cell (c w p : Z) : 0 < w -> c * w <= p < c * w + w -> p / w = c.
Proof.
  intros Hw Hp. symmetry. apply (Z.div_unique_pos p w c (p - c * w)); lia.
Qed.

Lemma round_div_cell (c w : Z) : 0 < w -> round_div (c * w) w = c.
Proof.
  intros Hw. unfold round_div. symmetry.
  apply (Z.div_unique_pos (2 * (c * w) + w) (2 * w) c w); lia.
Qed.

Lemma div_bounds (p w : Z) : 0 < w -> (p / w) * w <= p < (p / w) * w + w.
Proof.
  intros Hw. pose proof (Z.div_mod p w ltac:(lia)) as E.
  pose proof (Z.mod_pos_bound p w Hw). lia.
Qed.

Lemma getCellAtPixel_cell (d : desk) (c r px py : Z) :
  0 < cell_w d -> 0 < cell_h d ->
  c * cell_w d <= px < c * cell_w d + cell_w d ->
  r * cell_h d <= py < r * cell_h d + cell_h d ->
  getCellAtPixel d px py = getCell d c r.
Proof.
  intros Hw Hh Hx Hy. unfold getCellAtPixel.
  rewrite (div_in_cell c (cell_w d) px), (div_in_cell r (cell_h d) py) by assumption.
  reflexivity.
Qed.

Lemma snd_placeIconInCell (ic : icon) (col row : Z) (d : desk) :
  snd (placeIconInCell ic col row d) =
  option_map (fun c => (cell_x c, cell_y c)) (getCell (fst (placeIconInCell ic col row d)) col row).
Proof.
  unfold placeIconInCell. cbv zeta.
  destruct (getCell _ col row) eqn:E; cbn [fst snd]; rewrite E; reflexivity.
Qed.

End Geometry.

(** ** Fitting a dragged icon *)

Section Fit.

Lemma fit_test_true (o : option cell) (id : nat) :
  match o with
  | None => false
  | Some cell =>
      negb (match cell_icon cell with Some _ => true | None => false end &&
            negb (bool_decide (cell_icon cell = Some id)))
  end = true <->
  exists x, o = Some x /\ (cell_icon x = None \/ cell_icon x = Some id).
Proof.
  destruct o as [x|]; split.
  - intros H. exists x. split; [reflexivity|].
    destruct (cell_icon x) as [j|] eqn:Ei; [right | left; reflexivity].
    simpl in H. destruct (bool_decide (Some j = Some id)) eqn:E; [|discriminate].
    apply bool_decide_eq_true in E. exact E.
  - intros (y & [= <-] & [H|H]); rewrite H; [reflexivity|].
    rewrite bool_decide_eq_true_2 by reflexivity. reflexivity.
  - discriminate.
  - intros (y & H & _). discriminate.
Qed.

Lemma canIconFitAt_iff (d : desk) (col row cols rows : Z) (id : nat) :
  _canIconFitAt d col row cols rows id = true <->
  (0 <= col /\ 0 <= row /\ col + cols <= grid_columns d /\ row + rows <= grid_rows d) /\
  forall c r, col <= c < col + cols -> row <= r < row + rows ->
    exists x, getCell d c r = Some x /\ (cell_icon x = None \/ cell_icon x = Some id).
Proof.
  unfold _canIconFitAt.
  destruct ((col <? 0) || (row <? 0) || (grid_columns d <? col + cols) ||
            (grid_rows d <? row + rows)) eqn:Eb.
  - split; [discriminate|]. intros [Hb _].
    rewrite !orb_true_iff, !Z.ltb_lt in Eb. lia.
  - rewrite !orb_false_iff, !Z.ltb_ge in Eb.
    rewrite all_range_true. split.
    + intros H. split; [lia|]. intros c r Hc Hr.
      assert (H1 := H c ltac:(rewrite Z_of_to_nat; lia)).
      rewrite all_range_true in H1.
      apply fit_test_true, H1. rewrite Z_of_to_nat. lia.
    + intros [_ H] c Hc. rewrite all_range_true. intros r Hr.
      apply fit_test_true, H; rewrite Z_of_to_nat in *; lia.
Qed.

Lemma drag_cols_size (ic : icon) :
  1 <= fp_cols (iconCellSize ic) -> drag_cols ic = fp_cols (iconCellSize ic).
Proof.
  unfold drag_cols, iconCellSize, or_one. destruct (icon_cellSize ic); [|reflexivity].
  intros H. rewrite (proj2 (Z.eqb_neq _ 0)) by lia. reflexivity.
Qed.

Lemma drag_rows_size (ic : icon) :
  1 <= fp_rows (iconCellSize ic) -> drag_rows ic = fp_rows (iconCellSize ic).
Proof.
  unfold drag_rows, iconCellSize, or_one. destruct (icon_cellSize ic); [|reflexivity].
  intros H. rewrite (proj2 (Z.eqb_neq _ 0)) by lia. reflexivity.
Qed.

Lemma in_placement_iff (col0 row0 : Z) (fp : footprint) (c r : Z) :
  in_placement col0 row0 fp c r = true <->
  col0 <= c < col0 + fp_cols fp /\ row0 <= r < row0 + fp_rows fp.
Proof.
  unfold in_placement. rewrite !andb_true_iff, !Z.leb_le, !Z.ltb_lt. tauto.
Qed.

(** On a well-formed grid [removeIconFromCells] clears the icon's cells
    wherever they are. *)
Lemma getCell_release_wf (ic : icon) (d : desk) (c r : Z) :
  wf d ->
  getCell (removeIconFromCells ic d) c r = option_map (clear_if (icon_id ic)) (getCell d c r).
Proof.
  intros Hwf. rewrite getCell_release.
  destruct (getCell d c r) as [x|] eqn:Ex.
  - rewrite (wf_in_settings d c r x Hwf Ex). reflexivity.
  - destruct (in_settings d c r); reflexivity.
Qed.

(** Consistent cells: free for [areCellsFree] iff without an icon. *)
Lemma consistent_free (x : cell) (ex : option nat) :
  cell_consistent x ->
  (cell_occupied x = false \/ cell_icon x = ex) <->
  (cell_icon x = None \/ cell_icon x = ex).
Proof.
  unfold cell_consistent. intros [H1 H2].
  destruct (cell_occupied x) eqn:Eo; destruct (cell_icon x) as [n|] eqn:Ei.
  - split; intros [H|H]; try discriminate; right; exact H.
  - exfalso. exact (H1 eq_refl eq_refl).
  - exfalso. apply Bool.diff_false_true, H2. discriminate.
  - split; intros _; left; reflexivity.
Qed.

End Fit.

(** ** Freeing cells by position *)

Section FreeCells.

Lemma set_cell_lengths (d : desk) (col row : Z) (g : cell -> cell) :
  cells_length (set_cell d col row g) = cells_length d /\
  forall c, column_length (set_cell d col row g) c = column_length d c.
Proof.
  unfold cells_length, column_length, set_cell.
  destruct (_cells d) as [cs|] eqn:Ecs; simpl; [|rewrite Ecs; split; [reflexivity | intros; reflexivity]].
  split; [rewrite length_alter; reflexivity|].
  intros c. destruct (c <? 0); [reflexivity|].
  destruct (decide (Z.to_nat col = Z.to_nat c)) as [E|E].
  - rewrite E, list_lookup_alter_eq. destruct (cs !! Z.to_nat c); simpl; [|reflexivity].
    rewrite length_alter. reflexivity.
  - rewrite list_lookup_alter_ne by exact E. reflexivity.
Qed.

Lemma column_length_cells (d : desk) (c r len : Z) :
  column_length d c = Some len -> 0 <= r ->
  (is_Some (getCell d c r) <-> r < len).
Proof.
  unfold column_length, getCell. destruct (_cells d) as [cs|]; [|discriminate].
  destruct (Z.ltb_spec c 0); [discriminate|].
  destruct (cs !! Z.to_nat c) as [column|]; [|discriminate].
  intros [= <-] Hr. destruct (Z.ltb_spec r 0); [lia|]. simpl.
  rewrite lookup_lt_is_Some. lia.
Qed.

Lemma cells_length_columns (d : desk) (c L : Z) :
  cells_length d = Some L -> 0 <= c ->
  (c < L <-> exists len, column_length d c = Some len).
Proof.
  unfold cells_length, column_length. destruct (_cells d) as [cs|]; [|discriminate].
  intros [= <-] Hc. destruct (Z.ltb_spec c 0); [lia|].
  split.
  - intros Hlt. destruct (lookup_lt_is_Some_2 cs (Z.to_nat c)) as [column ->]; [lia|].
    eauto.
  - intros [len Hl]. destruct (cs !! Z.to_nat c) eqn:E; [|discriminate].
    apply lookup_lt_Some in E. lia.
Qed.

Lemma cells_length_beyond (d : desk) (c r L : Z) :
  cells_length d = Some L -> L <= c -> getCell d c r = None.
Proof.
  unfold cells_length, getCell. destruct (_cells d) as [cs|]; [|discriminate].
  intros [= <-] Hc. destruct ((c <? 0) || (r <? 0)); [reflexivity|].
  rewrite (proj2 (lookup_ge_None cs (Z.to_nat c))) by lia. reflexivity.
Qed.

Lemma free_rows_spec (n : nat) (d : desk) (c r len : Z) :
  column_length d c = Some len -> 0 <= r ->
  snd (free_rows d c r n) = false /\
  cells_length (fst (free_rows d c r n)) = cells_length d /\
  (forall c', column_length (fst (free_rows d c r n)) c' = column_length d c') /\
  forall c' r', getCell (fst (free_rows d c r n)) c' r' =
    if (c' =? c) && (r <=? r') && (r' <? r + Z.of_nat n)
    then option_map clear (getCell d c' r') else getCell d c' r'.
Proof.
  revert d r. induction n as [|n IH]; intros d r Hlen Hr; simpl.
  - split; [reflexivity|]. split; [reflexivity|]. split; [reflexivity|].
    intros c' r'. rewrite Z.add_0_r.
    destruct (Z.leb_spec r r'); destruct (Z.ltb_spec r' r); try lia;
      rewrite ?andb_false_r; reflexivity.
  - rewrite Hlen. destruct (Z.ltb_spec r len) as [Hlt|Hge].
    + destruct (Z.ltb_spec r 0); [lia|].
      destruct (proj2 (column_length_cells d c r len Hlen Hr) Hlt) as [x Hx].
      destruct (set_cell_lengths d c r clear) as [HL HC].
      destruct (IH (set_cell d c r clear) (r + 1) ltac:(rewrite HC; exact Hlen) ltac:(lia))
        as (H1 & H2 & H3 & H4).
      split; [exact H1|]. split; [rewrite H2; exact HL|].
      split; [intros c'; rewrite H3; apply HC|].
      intros c' r'. rewrite H4, !(getCell_set_cell d c r clear x) by exact Hx.
      destruct (Z.eqb_spec c' c) as [->|Hne]; simpl; [|reflexivity].
      destruct (Z.eqb_spec r' r) as [->|Hne']; simpl.
      * destruct (Z.leb_spec (r + 1) r); [lia|]. simpl.
        destruct (Z.leb_spec r r); [|lia]. simpl.
        destruct (Z.ltb_spec r (r + Z.of_nat (S n))); [|lia]. rewrite Hx. reflexivity.
      * destruct (Z.leb_spec (r + 1) r'); destruct (Z.leb_spec r r');
          destruct (Z.ltb_spec r' (r + 1 + Z.of_nat n));
          destruct (Z.ltb_spec r' (r + Z.of_nat (S n))); simpl; try lia; reflexivity.
    + split; [reflexivity|]. split; [reflexivity|]. split; [reflexivity|].
      intros c' r'. destruct (Z.eqb_spec c' c) as [->|Hne]; simpl; [|reflexivity].
      destruct (Z.leb_spec r r'); simpl; [|reflexivity].
      destruct (Z.ltb_spec r' (r + Z.of_nat (S n))); [|reflexivity].
      destruct (getCell d c r') as [y|] eqn:Ey; [|reflexivity].
      assert (Hs : is_Some (getCell d c r')) by (rewrite Ey; eauto).
      apply (column_length_cells d c r' len Hlen) in Hs; lia.
Qed.

Lemma free_cols_spec (n : nat) (d : desk) (c row rows L : Z) :
  cells_length d = Some L -> 0 <= c -> 0 <= row ->
  snd (free_cols d c row rows n) = false /\
  cells_length (fst (free_cols d c row rows n)) = Some L /\
  forall c' r', getCell (fst (free_cols d c row rows n)) c' r' =
    if (c <=? c') && (c' <? c + Z.of_nat n) && (row <=? r') && (r' <? row + rows)
    then option_map clear (getCell d c' r') else getCell d c' r'.
Proof.
  revert d c. induction n as [|n IH]; intros d c HL Hc Hrow; simpl.
  - split; [reflexivity|]. split; [exact HL|]. intros c' r'. rewrite Z.add_0_r.
    destruct (Z.leb_spec c c'); destruct (Z.ltb_spec c' c); try lia;
      rewrite ?andb_false_r; simpl; reflexivity.
  - rewrite HL. destruct (Z.ltb_spec c L) as [Hlt|Hge].
    + destruct (proj1 (cells_length_columns d c L HL Hc) Hlt) as [len Hlen].
      destruct (free_rows_spec (Z.to_nat (row + rows - row)) d c row len Hlen Hrow)
        as (R1 & R2 & R3 & R4).
      destruct (free_rows d c row (Z.to_nat (row + rows - row))) as [d1 threw] eqn:Ef.
      simpl in R1, R2, R3, R4. subst threw.
      destruct (IH d1 (c + 1) ltac:(rewrite R2; exact HL) ltac:(lia) Hrow)
        as (H1 & H2 & H3).
      split; [exact H1|]. split; [exact H2|].
      intros c' r'. rewrite H3, !R4. rewrite Z_of_to_nat.
      destruct (Z.eqb_spec c' c) as [->|Hne].
      * destruct (Z.leb_spec (c + 1) c); [lia|]. simpl.
        destruct (Z.leb_spec c c); [|lia].
        destruct (Z.ltb_spec c (c + Z.of_nat (S n))); [|lia]. simpl.
        destruct (Z.leb_spec row r'); destruct (Z.ltb_spec r' (row + Z.max 0 (row + rows - row)));
          destruct (Z.ltb_spec r' (row + rows)); simpl; try lia; reflexivity.
      * simpl.
        destruct (Z.leb_spec (c + 1) c'); destruct (Z.leb_spec c c');
          destruct (Z.ltb_spec c' (c + 1 + Z.of_nat n));
          destruct (Z.ltb_spec c' (c + Z.of_nat (S n))); simpl; try lia; reflexivity.
    + split; [reflexivity|]. split; [exact HL|].
      intros c' r'. destruct (Z.leb_spec c c'); simpl; [|reflexivity].
      rewrite (cells_length_beyond d c' r' L HL) by lia.
      destruct (_ && _); reflexivity.
Qed.

Lemma free_icon_cells_spec (d : desk) (cellSize : footprint) (iconX iconY : Z) :
  _cells d <> None ->
  0 <= round_div iconX (cell_w d) -> 0 <= round_div iconY (cell_h d) ->
  snd (free_icon_cells d cellSize iconX iconY) = false /\
  forall c r, getCell (fst (free_icon_cells d cellSize iconX iconY)) c r =
    if in_placement (round_div iconX (cell_w d)) (round_div iconY (cell_h d)) cellSize c r
    then option_map clear (getCell d c r) else getCell d c r.
Proof.
  intros Hcells Hc Hr. unfold free_icon_cells.
  assert (HL : exists L, cells_length d = Some L)
    by (unfold cells_length; destruct (_cells d); [eauto | congruence]).
  destruct HL as [L HL].
  destruct (free_cols_spec (Z.to_nat (round_div iconX (cell_w d) + fp_cols cellSize -
                                      round_div iconX (cell_w d)))
              d _ _ (fp_rows cellSize) L HL Hc Hr) as (H1 & _ & H3).
  split; [exact H1|]. intros c r. rewrite H3, Z_of_to_nat. unfold in_placement.
  destruct (Z.leb_spec (round_div iconX (cell_w d)) c); simpl; [|reflexivity].
  destruct (Z.ltb_spec c (round_div iconX (cell_w d) + fp_cols cellSize));
    destruct (Z.ltb_spec c (round_div iconX (cell_w d) +
               Z.max 0 (round_div iconX (cell_w d) + fp_cols cellSize - round_div iconX (cell_w d))));
    simpl; try lia; reflexivity.
Qed.

End FreeCells.

(** * Claims *)

(** ** C1 *)

(** C1 (counterexample): [_buildCellGrid] with [grid-columns = 0] does not
    fail: it completes and installs an empty cell table, on which every
    [getCell] is not-found. *)
Lemma C1_build_zero_columns_succeeds :
  _cells (_buildCellGrid (mkDesk 0 3 100 100 None)) = Some [] /\
  forall c r, getCell (_buildCellGrid (mkDesk 0 3 100 100 None)) c r = None.
Proof.
  split; [reflexivity|]. intros c r. unfold getCell. simpl.
  destruct ((c <? 0) || (r <? 0)); [reflexivity|].
  destruct (Z.to_nat c); reflexivity.
Qed.

(** C1 (amended): [_buildCellGrid] never fails; when [columns <= 0] or
    [rows <= 0] it installs a cell table that has no cells, so [getCell]
    returns not-found at every coordinate. *)
Theorem build_nonpositive_is_empty (d : desk) :
  grid_columns d <= 0 \/ grid_rows d <= 0 ->
  _cells (_buildCellGrid d) <> None /\
  forall c r, getCell (_buildCellGrid d) c r = None.
Proof.
  intros Hdim. split; [simpl; discriminate|].
  intros c r. rewrite getCell_build. unfold in_settings.
  zbool; simpl; try reflexivity; lia.
Qed.

Lemma build_nonpositive_is_empty_witness :
  (grid_columns (mkDesk 0 3 100 100 None) <= 0 \/
   grid_rows (mkDesk 0 3 100 100 None) <= 0) /\
  _cells (_buildCellGrid (mkDesk 0 3 100 100 None)) <> None /\
  forall c r, getCell (_buildCellGrid (mkDesk 0 3 100 100 None)) c r = None.
Proof.
  split; [left; simpl; lia|].
  apply (build_nonpositive_is_empty (mkDesk 0 3 100 100 None)). left. simpl. lia.
Defined.

(** ** C2 *)

(** C2: for a footprint of at least 1x1, [areCellsFree] is true iff every
    cell of the placement exists (is in bounds) and is either unoccupied or
    references the excluded icon. *)
Theorem areCellsFree_spec (d : desk) (col row : Z) (fp : footprint) (ex : option nat) :
  1 <= fp_cols fp -> 1 <= fp_rows fp ->
  areCellsFree d col row fp ex = true <->
  forall dc dr, 0 <= dc < fp_cols fp -> 0 <= dr < fp_rows fp ->
    exists x, getCell d (col + dc) (row + dr) = Some x /\
              (cell_occupied x = false \/ cell_icon x = ex).
Proof. apply areCellsFree_iff. Qed.

Lemma areCellsFree_spec_witness :
  (1 <= fp_cols (mkFootprint 2 2) /\ 1 <= fp_rows (mkFootprint 2 2)) /\
  (areCellsFree grid_4x4_A 2 0 (mkFootprint 2 2) None = true <->
   forall dc dr, 0 <= dc < fp_cols (mkFootprint 2 2) -> 0 <= dr < fp_rows (mkFootprint 2 2) ->
     exists x, getCell grid_4x4_A (2 + dc) (0 + dr) = Some x /\
               (cell_occupied x = false \/ cell_icon x = None)).
Proof.
  split; [simpl; lia|]. apply areCellsFree_spec; simpl; lia.
Defined.

(** ** C3 *)

(** C3: if the placement of [fp] at [(col, row)] is free, then after
    [placeIconInCell] with an icon of footprint [fp] every cell of the
    placement is occupied by that icon, and [areCellsFree] on the same
    placement is false for every exclusion other than that icon. *)
Theorem placeIconInCell_reserves (d : desk) (ic : icon) (col row : Z) (fp : footprint) :
  icon_cellSize ic = Some fp -> 1 <= fp_cols fp -> 1 <= fp_rows fp ->
  areCellsFree d col row fp None = true ->
  (forall dc dr, 0 <= dc < fp_cols fp -> 0 <= dr < fp_rows fp ->
     exists x, getCell (fst (placeIconInCell ic col row d)) (col + dc) (row + dr) = Some x /\
               cell_occupied x = true /\ cell_icon x = Some (icon_id ic)) /\
  (forall ex, ex <> Some (icon_id ic) ->
     areCellsFree (fst (placeIconInCell ic col row d)) col row fp ex = false).
Proof.
  intros Hfp Hc Hr Hfree.
  pose proof (proj1 (areCellsFree_iff d col row fp None Hc Hr) Hfree) as Hcells.
  assert (Hmarked : forall dc dr, 0 <= dc < fp_cols fp -> 0 <= dr < fp_rows fp ->
            exists x, getCell (fst (placeIconInCell ic col row d)) (col + dc) (row + dr) = Some x /\
                      cell_occupied x = true /\ cell_icon x = Some (icon_id ic)).
  { intros dc dr Hdc Hdr. destruct (Hcells dc dr Hdc Hdr) as (y & Hy & _).
    exists (mark ic y). rewrite getCell_place, (iconCellSize_some ic fp Hfp).
    replace (in_placement col row fp (col + dc) (row + dr)) with true
      by (unfold in_placement; zbool; simpl; try reflexivity; lia).
    rewrite Hy. repeat split. }
  split; [exact Hmarked|].
  intros ex Hex. destruct (areCellsFree _ col row fp ex) eqn:E; [|reflexivity].
  exfalso. pose proof (proj1 (areCellsFree_iff _ col row fp ex Hc Hr) E) as E'.
  destruct (E' 0 0) as (x & Hx & Hfree0); [lia|lia|].
  destruct (Hmarked 0 0) as (y & Hy & Hocc & Hid); [lia|lia|].
  rewrite Hx in Hy. injection Hy as <-.
  destruct Hfree0 as [H|H]; congruence.
Qed.

Lemma placeIconInCell_reserves_witness :
  (icon_cellSize icon_A = Some (mkFootprint 2 2) /\ 1 <= fp_cols (mkFootprint 2 2) /\
   1 <= fp_rows (mkFootprint 2 2) /\ areCellsFree grid_4x4 0 0 (mkFootprint 2 2) None = true) /\
  ((forall dc dr, 0 <= dc < 2 -> 0 <= dr < 2 ->
     exists x, getCell (fst (placeIconInCell icon_A 0 0 grid_4x4)) (0 + dc) (0 + dr) = Some x /\
               cell_occupied x = true /\ cell_icon x = Some (icon_id icon_A)) /\
   (forall ex, ex <> Some (icon_id icon_A) ->
     areCellsFree (fst (placeIconInCell icon_A 0 0 grid_4x4)) 0 0 (mkFootprint 2 2) ex = false)).
Proof.
  split; [split; [reflexivity|]; split; [simpl; lia|]; split; [simpl; lia | vm_compute; reflexivity]|].
  apply (placeIconInCell_reserves grid_4x4 icon_A 0 0 (mkFootprint 2 2));
    [reflexivity | simpl; lia | simpl; lia | vm_compute; reflexivity].
Defined.

(** ** C4 *)

(** C4: after [_buildCellGrid] with positive dimensions every cell of
    [[0, columns) x [0, rows)] exists and is free, and [getCell] (a pure
    lookup) is not-found outside that range. *)
Theorem build_all_free (d : desk) :
  0 < grid_columns d -> 0 < grid_rows d ->
  (forall c r, 0 <= c < grid_columns d -> 0 <= r < grid_rows d ->
     exists x, getCell (_buildCellGrid d) c r = Some x /\
               cell_occupied x = false /\ cell_icon x = None) /\
  (forall c r, ~ (0 <= c < grid_columns d /\ 0 <= r < grid_rows d) ->
     getCell (_buildCellGrid d) c r = None).
Proof.
  intros _ _. split.
  - intros c r Hc Hr. exists (fresh_cell d c r). rewrite getCell_build.
    replace (in_settings d c r) with true
      by (unfold in_settings; zbool; simpl; try reflexivity; lia).
    repeat split.
  - intros c r Hout. rewrite getCell_build. unfold in_settings.
    zbool; simpl; try reflexivity. exfalso. lia.
Qed.

Lemma build_all_free_witness :
  (0 < grid_columns (mkDesk 4 4 100 100 None) /\ 0 < grid_rows (mkDesk 4 4 100 100 None)) /\
  (forall c r, 0 <= c < 4 -> 0 <= r < 4 ->
     exists x, getCell grid_4x4 c r = Some x /\
               cell_occupied x = false /\ cell_icon x = None) /\
  (forall c r, ~ (0 <= c < 4 /\ 0 <= r < 4) -> getCell grid_4x4 c r = None).
Proof.
  split; [simpl; lia|].
  apply (build_all_free (mkDesk 4 4 100 100 None)); simpl; lia.
Defined.

(** ** C5 *)

(** C5: on a grid of the data model's shape and a footprint of at least
    1x1, [findFreeCell] returns the first anchor in row-major order (rows top
    to bottom, columns left to right) at which [areCellsFree] holds, and
    not-found exactly when no anchor at all satisfies [areCellsFree]. On the
    4x4 grid with a 2x2 icon at (0,0), a 1x1 search returns (2,0). *)
Theorem findFreeCell_first_fit (d : desk) (fp : footprint) (ex : option nat) :
  wf d -> 1 <= fp_cols fp -> 1 <= fp_rows fp ->
  (forall col row, findFreeCell d fp ex = Some (col, row) ->
     areCellsFree d col row fp ex = true /\
     forall c' r', r' < row \/ (r' = row /\ c' < col) ->
                   areCellsFree d c' r' fp ex = false) /\
  (findFreeCell d fp ex = None <->
   forall col row, areCellsFree d col row fp ex = false) /\
  findFreeCell grid_4x4_A (mkFootprint 1 1) None = Some (2, 0).
Proof.
  intros Hwf Hc Hr. split; [|split].
  - intros col row H.
    destruct (findFreeCell_Some d fp ex col row H)
      as (Hrow & Hcol & Hfree & Hbefore & Hleft).
    split; [exact Hfree|].
    intros c' r' Hord. destruct (areCellsFree d c' r' fp ex) eqn:E; [|reflexivity].
    exfalso. destruct (free_anchor_in_range d c' r' fp ex Hwf Hc Hr E) as [Hc' Hr'].
    destruct Hord as [Hlt|[-> Hlt]].
    + rewrite (Hbefore r' c') in E by lia. discriminate.
    + rewrite (Hleft c') in E by lia. discriminate.
  - rewrite findFreeCell_None. split.
    + intros H col row. destruct (areCellsFree d col row fp ex) eqn:E; [|reflexivity].
      destruct (free_anchor_in_range d col row fp ex Hwf Hc Hr E).
      rewrite H in E by lia. discriminate.
    + intros H row col _ _. apply H.
  - vm_compute. reflexivity.
Qed.

Lemma findFreeCell_first_fit_witness :
  (wf grid_4x4_A /\ 1 <= fp_cols (mkFootprint 1 1) /\ 1 <= fp_rows (mkFootprint 1 1)) /\
  ((forall col row, findFreeCell grid_4x4_A (mkFootprint 1 1) None = Some (col, row) ->
     areCellsFree grid_4x4_A col row (mkFootprint 1 1) None = true /\
     forall c' r', r' < row \/ (r' = row /\ c' < col) ->
                   areCellsFree grid_4x4_A c' r' (mkFootprint 1 1) None = false) /\
   (findFreeCell grid_4x4_A (mkFootprint 1 1) None = None <->
    forall col row, areCellsFree grid_4x4_A col row (mkFootprint 1 1) None = false) /\
   findFreeCell grid_4x4_A (mkFootprint 1 1) None = Some (2, 0)).
Proof.
  assert (Hwf : wf grid_4x4_A) by (apply wf_place, wf_build).
  split; [split; [exact Hwf | simpl; lia]|].
  apply (findFreeCell_first_fit grid_4x4_A (mkFootprint 1 1) None Hwf); simpl; lia.
Defined.

(** ** C6 *)

(** C6: [findNearestFreeCell] is the search the specification describes
    ([findNearestFree_spec]: the target if free, else the perimeter rings
    of radius 1 to 20 with [dc] then [dr] ascending, negative anchors
    skipped, first free anchor or not-found), and for a footprint of at
    least 1x1 it never returns negative coordinates. *)
Theorem findNearestFreeCell_spiral (d : desk) (tc tr : Z) (fp : footprint) (ex : option nat) :
  1 <= fp_cols fp -> 1 <= fp_rows fp ->
  findNearestFreeCell d tc tr fp ex = findNearestFree_spec d tc tr fp ex /\
  (forall col row, findNearestFreeCell d tc tr fp ex = Some (col, row) ->
                   0 <= col /\ 0 <= row).
Proof.
  intros Hc Hr. split.
  - apply findNearestFreeCell_refines.
  - intros col row. apply findNearestFreeCell_nonneg; assumption.
Qed.

Lemma findNearestFreeCell_spiral_witness :
  (1 <= fp_cols (mkFootprint 1 1) /\ 1 <= fp_rows (mkFootprint 1 1)) /\
  (findNearestFreeCell grid_4x4_A 0 0 (mkFootprint 1 1) None =
     findNearestFree_spec grid_4x4_A 0 0 (mkFootprint 1 1) None /\
   (forall col row, findNearestFreeCell grid_4x4_A 0 0 (mkFootprint 1 1) None = Some (col, row) ->
                    0 <= col /\ 0 <= row)).
Proof.
  split; [simpl; lia|].
  apply (findNearestFreeCell_spiral grid_4x4_A 0 0 (mkFootprint 1 1) None); simpl; lia.
Defined.

(** ** C7 *)

(** C7: on a grid of the data model's shape, placing an icon on a free
    placement and then removing it leaves that placement free again. *)
Theorem reserve_release_roundtrip (d : desk) (ic : icon) (col row : Z) (fp : footprint) :
  wf d -> icon_cellSize ic = Some fp -> 1 <= fp_cols fp -> 1 <= fp_rows fp ->
  areCellsFree d col row fp None = true ->
  areCellsFree (removeIconFromCells ic (fst (placeIconInCell ic col row d)))
               col row fp None = true.
Proof.
  intros Hwf Hfp Hc Hr Hfree.
  pose proof (proj1 (areCellsFree_iff d col row fp None Hc Hr) Hfree) as Hcells.
  apply (areCellsFree_iff _ col row fp None Hc Hr).
  intros dc dr Hdc Hdr. destruct (Hcells dc dr Hdc Hdr) as (y & Hy & _).
  set (d1 := fst (placeIconInCell ic col row d)).
  assert (Hy1 : getCell d1 (col + dc) (row + dr) = Some (mark ic y)).
  { unfold d1. rewrite getCell_place, (iconCellSize_some ic fp Hfp), Hy.
    replace (in_placement col row fp (col + dc) (row + dr)) with true
      by (unfold in_placement; zbool; simpl; try reflexivity; lia).
    reflexivity. }
  exists (clear (mark ic y)). split; [|left; reflexivity].
  rewrite getCell_release.
  rewrite (wf_in_settings d1 _ _ _ (wf_place ic col row d Hwf) Hy1), Hy1. simpl.
  rewrite clear_if_match by reflexivity. reflexivity.
Qed.

Lemma reserve_release_roundtrip_witness :
  (wf grid_4x4 /\ icon_cellSize icon_A = Some (mkFootprint 2 2) /\
   1 <= fp_cols (mkFootprint 2 2) /\ 1 <= fp_rows (mkFootprint 2 2) /\
   areCellsFree grid_4x4 0 0 (mkFootprint 2 2) None = true) /\
  areCellsFree (removeIconFromCells icon_A (fst (placeIconInCell icon_A 0 0 grid_4x4)))
               0 0 (mkFootprint 2 2) None = true.
Proof.
  assert (Hwf : wf grid_4x4) by apply wf_build.
  split; [split; [exact Hwf|]; split; [reflexivity|]; split; [simpl; lia|];
          split; [simpl; lia | vm_compute; reflexivity]|].
  apply (reserve_release_roundtrip grid_4x4 icon_A 0 0 (mkFootprint 2 2) Hwf);
    [reflexivity | simpl; lia | simpl; lia | vm_compute; reflexivity].
Defined.

(** ** C8 *)

(** C8: [removeIconFromCells] leaves the state unchanged when the icon is
    in no cell, is idempotent, and on a grid of the data model's shape
    clears exactly the cells that reference the icon (all other cells are
    left as they are). *)
Theorem removeIconFromCells_idempotent (ic : icon) (d : desk) :
  ((forall c r x, getCell d c r = Some x -> cell_icon x <> Some (icon_id ic)) ->
   removeIconFromCells ic d = d) /\
  removeIconFromCells ic (removeIconFromCells ic d) = removeIconFromCells ic d /\
  (wf d -> forall c r,
     getCell (removeIconFromCells ic d) c r =
     match getCell d c r with
     | Some x => Some (if bool_decide (cell_icon x = Some (icon_id ic)) then clear x else x)
     | None => None
     end).
Proof.
  split; [|split].
  - intros H. apply release_noop. intros c r x _ Hx. exact (H c r x Hx).
  - apply release_noop. intros c r x Hin Hx.
    destruct (release_settings ic d) as (H1 & H2 & _).
    assert (Hin' : in_settings d c r = true)
      by (unfold in_settings in *; rewrite H1, H2 in Hin; exact Hin).
    rewrite getCell_release, Hin' in Hx.
    destruct (getCell d c r) as [y|]; [|discriminate]. injection Hx as <-.
    apply clear_if_not_id.
  - intros Hwf c r. rewrite getCell_release.
    destruct (getCell d c r) as [x|] eqn:Ex.
    + rewrite (wf_in_settings d c r x Hwf Ex). reflexivity.
    + destruct (in_settings d c r); reflexivity.
Qed.

Lemma removeIconFromCells_idempotent_witness :
  wf grid_4x4_A /\
  ((forall c r x, getCell grid_4x4 c r = Some x -> cell_icon x <> Some (icon_id icon_A)) ->
   removeIconFromCells icon_A grid_4x4 = grid_4x4) /\
  removeIconFromCells icon_A (removeIconFromCells icon_A grid_4x4_A) =
    removeIconFromCells icon_A grid_4x4_A /\
  (wf grid_4x4_A -> forall c r,
     getCell (removeIconFromCells icon_A grid_4x4_A) c r =
     match getCell grid_4x4_A c r with
     | Some x => Some (if bool_decide (cell_icon x = Some (icon_id icon_A)) then clear x else x)
     | None => None
     end).
Proof.
  split; [apply wf_place, wf_build|]. split.
  - apply (removeIconFromCells_idempotent icon_A grid_4x4).
  - apply (removeIconFromCells_idempotent icon_A grid_4x4_A).
Defined.

(** ** C9 *)

(** C9: in every state reachable by rebuilding the grid, placing and
    removing icons, a cell is occupied iff it references an icon. *)
Theorem reachable_occupied_iff_icon (d : desk) :
  reachable d ->
  forall c r x, getCell d c r = Some x ->
    (cell_occupied x = true <-> cell_icon x <> None).
Proof. intros Hr c r x Hx. exact (reachable_consistent d Hr c r x Hx). Qed.

Lemma reachable_occupied_iff_icon_witness :
  reachable grid_4x4_A /\
  forall c r x, getCell grid_4x4_A c r = Some x ->
    (cell_occupied x = true <-> cell_icon x <> None).
Proof.
  assert (H : reachable grid_4x4_A).
  { apply rs_place. apply (rs_rebuild (mkDesk 4 4 100 100 None)). apply rs_init. }
  split; [exact H|]. apply (reachable_occupied_iff_icon grid_4x4_A H).
Defined.

(** ** C10 *)

(** C10: [placeIconInCell] is total for every anchor and footprint: the
    cells of the placement that exist are marked as occupied by the icon,
    the ones outside the grid are skipped, every other cell is unchanged,
    and the icon is positioned at the anchor cell exactly when that cell
    exists. *)
Theorem placeIconInCell_total (ic : icon) (col row : Z) (d : desk) :
  (forall c r,
     getCell (fst (placeIconInCell ic col row d)) c r =
     match getCell d c r with
     | Some x => Some (if in_placement col row (iconCellSize ic) c r then mark ic x else x)
     | None => None
     end) /\
  (forall x, getCell d col row = Some x ->
     snd (placeIconInCell ic col row d) = Some (cell_x x, cell_y x)) /\
  (getCell d col row = None -> snd (placeIconInCell ic col row d) = None).
Proof.
  assert (Hcells : forall c r,
     getCell (fst (placeIconInCell ic col row d)) c r =
     match getCell d c r with
     | Some x => Some (if in_placement col row (iconCellSize ic) c r then mark ic x else x)
     | None => None
     end).
  { intros c r. rewrite getCell_place.
    destruct (in_placement col row (iconCellSize ic) c r), (getCell d c r); reflexivity. }
  assert (Hpos : snd (placeIconInCell ic col row d) =
                 match getCell (fst (placeIconInCell ic col row d)) col row with
                 | Some c => Some (cell_x c, cell_y c) | None => None end).
  { unfold placeIconInCell at 1. simpl. rewrite <- fst_placeIconInCell.
    destruct (getCell _ col row); reflexivity. }
  split; [exact Hcells|]. split.
  - intros x Hx. rewrite Hpos, Hcells, Hx.
    destruct (in_placement _ _ _ _ _); reflexivity.
  - intros Hx. rewrite Hpos, Hcells, Hx. reflexivity.
Qed.

Lemma placeIconInCell_total_witness :
  getCell grid_4x4 3 3 <> None /\
  (forall c r,
     getCell (fst (placeIconInCell icon_A 3 3 grid_4x4)) c r =
     match getCell grid_4x4 c r with
     | Some x => Some (if in_placement 3 3 (iconCellSize icon_A) c r then mark icon_A x else x)
     | None => None
     end) /\
  (forall x, getCell grid_4x4 3 3 = Some x ->
     snd (placeIconInCell icon_A 3 3 grid_4x4) = Some (cell_x x, cell_y x)) /\
  (getCell grid_4x4 3 3 = None -> snd (placeIconInCell icon_A 3 3 grid_4x4) = None).
Proof.
  split; [vm_compute; discriminate|]. apply (placeIconInCell_total icon_A 3 3 grid_4x4).
Defined.

(** * Further properties of the grid code *)

(** ** Pixels and cells *)

(** X1: in every reachable state with positive cell sizes, [getCellAtPixel]
    returns exactly the cell whose rectangle [[x, x + width) x [y, y + height)]
    contains the pixel. *)
Theorem getCellAtPixel_rect (d : desk) (px py : Z) (x : cell) :
  reachable d -> 0 < cell_w d -> 0 < cell_h d ->
  (getCellAtPixel d px py = Some x <->
   getCell d (cell_col x) (cell_row x) = Some x /\
   cell_x x <= px < cell_x x + cell_width x /\
   cell_y x <= py < cell_y x + cell_height x).
Proof.
  intros Hr Hw Hh. split.
  - intros Hx. unfold getCellAtPixel in Hx. cbv zeta in Hx.
    destruct (reachable_geom d Hr _ _ x Hx) as (G1 & G2 & G3 & G4 & G5 & G6).
    rewrite G1, G2, G3, G4, G5, G6. split; [exact Hx|].
    pose proof (div_bounds px (cell_w d) Hw). pose proof (div_bounds py (cell_h d) Hh). lia.
  - intros (Hx & Hpx & Hpy).
    destruct (reachable_geom d Hr _ _ x Hx) as (_ & _ & G3 & G4 & G5 & G6).
    rewrite G3, G5 in Hpx. rewrite G4, G6 in Hpy.
    rewrite (getCellAtPixel_cell d (cell_col x) (cell_row x) px py Hw Hh Hpx Hpy).
    exact Hx.
Qed.

Lemma getCellAtPixel_rect_witness :
  (reachable grid_4x4 /\ 0 < cell_w grid_4x4 /\ 0 < cell_h grid_4x4) /\
  forall x, getCellAtPixel grid_4x4 150 250 = Some x <->
    getCell grid_4x4 (cell_col x) (cell_row x) = Some x /\
    cell_x x <= 150 < cell_x x + cell_width x /\
    cell_y x <= 250 < cell_y x + cell_height x.
Proof.
  assert (H : reachable grid_4x4).
  { apply (rs_rebuild (mkDesk 4 4 100 100 None)). apply rs_init. }
  split; [split; [exact H | split; vm_compute; reflexivity]|].
  intros x. apply (getCellAtPixel_rect grid_4x4 150 250 x H); vm_compute; reflexivity.
Defined.

(** X2: every cell of a reachable state sits at its own indices: it records
    its column and row, and its rectangle is the one [_buildCellGrid] gives
    those indices for the current cell size. *)
Theorem reachable_cell_geometry (d : desk) (c r : Z) (x : cell) :
  reachable d -> getCell d c r = Some x ->
  cell_col x = c /\ cell_row x = r /\
  cell_x x = c * cell_w d /\ cell_y x = r * cell_h d /\
  cell_width x = cell_w d /\ cell_height x = cell_h d.
Proof. intros Hr Hx. exact (reachable_geom d Hr c r x Hx). Qed.

Lemma reachable_cell_geometry_witness :
  let x := mkCell 1 1 100 100 100 100 (Some 1%nat) true in
  (reachable grid_4x4_A /\ getCell grid_4x4_A 1 1 = Some x) /\
  (cell_col x = 1 /\ cell_row x = 1 /\
   cell_x x = 1 * cell_w grid_4x4_A /\ cell_y x = 1 * cell_h grid_4x4_A /\
   cell_width x = cell_w grid_4x4_A /\ cell_height x = cell_h grid_4x4_A).
Proof.
  intros x.
  assert (H : reachable grid_4x4_A).
  { apply rs_place. apply (rs_rebuild (mkDesk 4 4 100 100 None)). apply rs_init. }
  assert (Hx : getCell grid_4x4_A 1 1 = Some x) by (vm_compute; reflexivity).
  split; [split; [exact H | exact Hx]|].
  apply (reachable_cell_geometry grid_4x4_A 1 1 x H Hx).
Defined.

(** X3: the position [placeIconInCell] gives the icon is the pixel origin of
    its anchor cell; [_reloadIcons] turns it back into the anchor with
    [Math.round], and [getCellAtPixel] at that position finds the anchor
    cell. *)
Theorem placeIconInCell_reload_roundtrip (d : desk) (ic : icon) (col row px py : Z) :
  reachable d -> 0 < cell_w d -> 0 < cell_h d ->
  snd (placeIconInCell ic col row d) = Some (px, py) ->
  px = col * cell_w d /\ py = row * cell_h d /\
  saved_target d (Some (reload_position d px py)) = (col, row) /\
  getCellAtPixel (fst (placeIconInCell ic col row d)) px py =
    getCell (fst (placeIconInCell ic col row d)) col row.
Proof.
  intros Hr Hw Hh Hs. rewrite snd_placeIconInCell in Hs.
  destruct (getCell (fst (placeIconInCell ic col row d)) col row) as [x|] eqn:Ex;
    [|discriminate].
  injection Hs as <- <-.
  destruct (reachable_geom _ (rs_place d ic col row Hr) col row x Ex)
    as (_ & _ & G3 & G4 & _ & _).
  destruct (place_dims ic col row d) as [Dw Dh].
  rewrite Dw in G3. rewrite Dh in G4. rewrite G3, G4.
  split; [reflexivity|]. split; [reflexivity|]. split.
  - unfold saved_target, reload_position. cbn.
    rewrite !round_div_cell by assumption. reflexivity.
  - rewrite <- Ex. apply getCellAtPixel_cell; rewrite ?Dw, ?Dh; lia.
Qed.

Lemma placeIconInCell_reload_roundtrip_witness :
  (reachable grid_4x4 /\ 0 < cell_w grid_4x4 /\ 0 < cell_h grid_4x4 /\
   snd (placeIconInCell icon_A 2 1 grid_4x4) = Some (200, 100)) /\
  (200 = 2 * cell_w grid_4x4 /\ 100 = 1 * cell_h grid_4x4 /\
   saved_target grid_4x4 (Some (reload_position grid_4x4 200 100)) = (2, 1) /\
   getCellAtPixel (fst (placeIconInCell icon_A 2 1 grid_4x4)) 200 100 =
     getCell (fst (placeIconInCell icon_A 2 1 grid_4x4)) 2 1).
Proof.
  assert (H : reachable grid_4x4).
  { apply (rs_rebuild (mkDesk 4 4 100 100 None)). apply rs_init. }
  split; [split; [exact H | split; [vm_compute; reflexivity | split; vm_compute; reflexivity]]|].
  apply (placeIconInCell_reload_roundtrip grid_4x4 icon_A 2 1 200 100 H);
    vm_compute; reflexivity.
Defined.

(** ** Dragging *)

(** X4: in every reachable state, the check [_updateDropIndicator] uses
    ([_canIconFitAt], which tests [cell.icon]) agrees with [areCellsFree]
    (which tests [cell.occupied]) with the dragged icon excluded. *)
Theorem canIconFitAt_areCellsFree (d : desk) (col row cols rows : Z) (id : nat) :
  reachable d -> 1 <= cols -> 1 <= rows ->
  _canIconFitAt d col row cols rows id = areCellsFree d col row (mkFootprint cols rows) (Some id).
Proof.
  intros Hr Hc Hrw. pose proof (reachable_wf d Hr) as Hwf.
  pose proof (reachable_consistent d Hr) as Hcons.
  apply Bool.eq_iff_eq_true. rewrite canIconFitAt_iff.
  rewrite (areCellsFree_iff d col row (mkFootprint cols rows) (Some id) Hc Hrw).
  cbn [fp_cols fp_rows]. split.
  - intros [Hb H] dc dr Hdc Hdr.
    destruct (H (col + dc) (row + dr) ltac:(lia) ltac:(lia)) as (x & Hx & Hi).
    exists x. split; [exact Hx|].
    apply (consistent_free x (Some id) (Hcons _ _ x Hx)). exact Hi.
  - intros H. split.
    + destruct (H 0 0) as (x0 & Hx0 & _); [lia|lia|].
      destruct (H (cols - 1) (rows - 1)) as (x1 & Hx1 & _); [lia|lia|].
      pose proof (wf_in_settings d _ _ x0 Hwf Hx0) as I0.
      pose proof (wf_in_settings d _ _ x1 Hwf Hx1) as I1.
      unfold in_settings in I0, I1.
      rewrite !andb_true_iff, !Z.leb_le, !Z.ltb_lt in I0, I1. lia.
    + intros c r Hc' Hr'.
      destruct (H (c - col) (r - row)) as (x & Hx & Hi); [lia|lia|].
      replace (col + (c - col)) with c in Hx by lia.
      replace (row + (r - row)) with r in Hx by lia.
      exists x. split; [exact Hx|].
      apply (consistent_free x (Some id) (Hcons _ _ x Hx)). exact Hi.
Qed.

Lemma canIconFitAt_areCellsFree_witness :
  (reachable grid_4x4_A /\ 1 <= 2 /\ 1 <= 2) /\
  _canIconFitAt grid_4x4_A 1 1 2 2 1%nat =
    areCellsFree grid_4x4_A 1 1 (mkFootprint 2 2) (Some 1%nat).
Proof.
  assert (H : reachable grid_4x4_A).
  { apply rs_place. apply (rs_rebuild (mkDesk 4 4 100 100 None)). apply rs_init. }
  split; [split; [exact H | lia]|].
  apply (canIconFitAt_areCellsFree grid_4x4_A 1 1 2 2 1%nat H); lia.
Defined.

(** X5: a drop accepted by [_updateDropIndicator] (the icon fits at the
    target), once the animation completes, leaves the dragged icon in
    exactly the cells of its footprint at the target, all occupied, and
    every cell of another icon as it was. *)
Theorem endDrag_drop (d : desk) (ic : icon) (tc tr ox oy : Z) :
  reachable d ->
  1 <= fp_cols (iconCellSize ic) -> 1 <= fp_rows (iconCellSize ic) ->
  _canIconFitAt d tc tr (drag_cols ic) (drag_rows ic) (icon_id ic) = true ->
  let d' := _endDrag d ic true (Some (tc, tr)) ox oy in
  (forall c r, in_placement tc tr (iconCellSize ic) c r = true ->
     exists x, getCell d' c r = Some x /\ cell_icon x = Some (icon_id ic) /\
               cell_occupied x = true) /\
  (forall c r x, getCell d' c r = Some x -> cell_icon x = Some (icon_id ic) ->
     in_placement tc tr (iconCellSize ic) c r = true) /\
  (forall c r x, getCell d c r = Some x -> cell_icon x <> None ->
     cell_icon x <> Some (icon_id ic) -> getCell d' c r = Some x).
Proof.
  intros Hr Hc Hrw Hfit0 d'.
  rewrite (drag_cols_size ic Hc), (drag_rows_size ic Hrw) in Hfit0.
  destruct (proj1 (canIconFitAt_iff d tc tr _ _ (icon_id ic)) Hfit0) as [Hb Hfit].
  pose proof (reachable_wf d Hr) as Hwf.
  destruct (Hfit tc tr ltac:(lia) ltac:(lia)) as (x0 & Hx0 & _).
  assert (Hd' : forall c r, getCell d' c r =
    if in_placement tc tr (iconCellSize ic) c r
    then option_map (mark ic) (option_map (clear_if (icon_id ic)) (getCell d c r))
    else option_map (clear_if (icon_id ic)) (getCell d c r)).
  { intros c r. unfold d', _endDrag. cbv zeta.
    destruct (_cells d) eqn:Ecells;
      [|unfold getCell in Hx0; rewrite Ecells in Hx0; discriminate].
    rewrite (getCell_release_wf ic d tc tr Hwf), Hx0. cbn [option_map].
    rewrite getCell_place, !(getCell_release_wf ic d c r Hwf). reflexivity. }
  split; [|split].
  - intros c r Hin. pose proof (proj1 (in_placement_iff _ _ _ c r) Hin) as Hrange.
    destruct (Hfit c r ltac:(lia) ltac:(lia)) as (y & Hy & _).
    rewrite Hd', Hin, Hy. eexists. split; [reflexivity|]. split; reflexivity.
  - intros c r x Hx Hi. rewrite Hd' in Hx.
    destruct (in_placement tc tr (iconCellSize ic) c r); [reflexivity|].
    destruct (getCell d c r) as [y|]; [|discriminate]. cbn [option_map] in Hx.
    injection Hx as <-. exfalso. exact (clear_if_not_id (icon_id ic) y Hi).
  - intros c r x Hx Hn Hne. rewrite Hd', Hx.
    destruct (in_placement tc tr (iconCellSize ic) c r) eqn:Ein.
    + exfalso. pose proof (proj1 (in_placement_iff _ _ _ c r) Ein) as Hrange.
      destruct (Hfit c r ltac:(lia) ltac:(lia)) as (y & Hy & [Hi|Hi]);
        rewrite Hx in Hy; injection Hy as <-; contradiction.
    + cbn [option_map]. rewrite clear_if_other by exact Hne. reflexivity.
Qed.

Lemma endDrag_drop_witness :
  (reachable grid_4x4_A /\
   1 <= fp_cols (iconCellSize icon_A) /\ 1 <= fp_rows (iconCellSize icon_A) /\
   _canIconFitAt grid_4x4_A 1 1 (drag_cols icon_A) (drag_rows icon_A) (icon_id icon_A) = true) /\
  let d' := _endDrag grid_4x4_A icon_A true (Some (1, 1)) 0 0 in
  (forall c r, in_placement 1 1 (iconCellSize icon_A) c r = true ->
     exists x, getCell d' c r = Some x /\ cell_icon x = Some (icon_id icon_A) /\
               cell_occupied x = true) /\
  (forall c r x, getCell d' c r = Some x -> cell_icon x = Some (icon_id icon_A) ->
     in_placement 1 1 (iconCellSize icon_A) c r = true) /\
  (forall c r x, getCell grid_4x4_A c r = Some x -> cell_icon x <> None ->
     cell_icon x <> Some (icon_id icon_A) -> getCell d' c r = Some x).
Proof.
  assert (H : reachable grid_4x4_A).
  { apply rs_place. apply (rs_rebuild (mkDesk 4 4 100 100 None)). apply rs_init. }
  split; [split; [exact H | split; [vm_compute; discriminate | split; [vm_compute; discriminate | vm_compute; reflexivity]]]|].
  apply (endDrag_drop grid_4x4_A icon_A 1 1 0 0 H);
    [vm_compute; discriminate | vm_compute; discriminate | vm_compute; reflexivity].
Defined.

(** X6: a drag of a placed icon that ends without an accepted drop
    re-places the icon at the cell under its original position, which
    leaves every cell as it was. *)
Theorem endDrag_cancel_restores (d : desk) (ic : icon) (col row ox oy : Z)
    (canDrop : bool) (target : option (Z * Z)) :
  reachable d -> 0 < cell_w d -> 0 < cell_h d ->
  snd (placeIconInCell ic col row d) = Some (ox, oy) ->
  canDrop = false \/ target = None ->
  forall c r,
    getCell (_endDrag (fst (placeIconInCell ic col row d)) ic canDrop target ox oy) c r =
    getCell (fst (placeIconInCell ic col row d)) c r.
Proof.
  intros Hr Hw Hh Hs Hcase c r.
  set (d1 := fst (placeIconInCell ic col row d)) in *.
  assert (Hr1 : reachable d1) by (apply rs_place; exact Hr).
  destruct (place_dims ic col row d) as [Dw Dh]. fold d1 in Dw, Dh.
  rewrite snd_placeIconInCell in Hs. fold d1 in Hs.
  destruct (getCell d1 col row) as [x|] eqn:Ex; [|discriminate].
  injection Hs as <- <-.
  destruct (reachable_geom d1 Hr1 col row x Ex) as (G1 & G2 & G3 & G4 & _ & _).
  assert (Hpix : getCellAtPixel d1 (cell_x x) (cell_y x) = Some x).
  { rewrite <- Ex. apply getCellAtPixel_cell; rewrite ?Dw, ?Dh; [lia|lia| |];
      rewrite ?G3, ?G4, ?Dw, ?Dh; lia. }
  assert (Hcells : _cells d1 <> None).
  { intros E. unfold getCell in Ex. rewrite E in Ex. discriminate. }
  assert (Hend : _endDrag d1 ic canDrop target (cell_x x) (cell_y x) =
                 fst (placeIconInCell ic col row d1)).
  { unfold _endDrag. cbv zeta.
    destruct (_cells d1) eqn:Ec; [|congruence].
    destruct Hcase as [-> | ->]; [destruct target as [[tc tr]|]|destruct canDrop];
      cbv beta iota; rewrite Hpix; rewrite G1, G2; reflexivity. }
  rewrite Hend, getCell_place. unfold d1. rewrite getCell_place.
  destruct (in_placement col row (iconCellSize ic) c r); [|reflexivity].
  destruct (getCell d c r); cbn [option_map]; [rewrite mark_idem|]; reflexivity.
Qed.

Lemma endDrag_cancel_restores_witness :
  (reachable grid_4x4 /\ 0 < cell_w grid_4x4 /\ 0 < cell_h grid_4x4 /\
   snd (placeIconInCell icon_A 1 2 grid_4x4) = Some (100, 200) /\
   (false = false \/ Some (3, 3) = None)) /\
  forall c r,
    getCell (_endDrag (fst (placeIconInCell icon_A 1 2 grid_4x4)) icon_A false (Some (3, 3)) 100 200) c r =
    getCell (fst (placeIconInCell icon_A 1 2 grid_4x4)) c r.
Proof.
  assert (H : reachable grid_4x4).
  { apply (rs_rebuild (mkDesk 4 4 100 100 None)). apply rs_init. }
  assert (Hs : snd (placeIconInCell icon_A 1 2 grid_4x4) = Some (100, 200))
    by (vm_compute; reflexivity).
  split; [split; [exact H | split; [vm_compute; reflexivity | split; [vm_compute; reflexivity | split; [exact Hs | left; reflexivity]]]]|].
  apply (endDrag_cancel_restores grid_4x4 icon_A 1 2 100 200 false (Some (3, 3)) H);
    [vm_compute; reflexivity | vm_compute; reflexivity | exact Hs | left; reflexivity].
Defined.

(** X7: the pointer cells of a drag decide the drop alone through the
    last one: the drop is accepted exactly when the icon fits at the last
    pointer cell, and the target is then that cell. *)
Theorem drag_session_last_move (d : desk) (ic : icon) (st0 : dropState)
    (moves : list (Z * Z)) :
  let st := drag_session d ic st0 moves in
  match rev moves with
  | (c, r) :: _ =>
      if _canIconFitAt d c r (drag_cols ic) (drag_rows ic) (icon_id ic)
      then _canDrop st = true /\ _dropTarget st = Some (c, r)
      else _canDrop st = false
  | [] => _canDrop st = false
  end.
Proof.
  induction moves as [|[c r] moves _] using rev_ind; simpl; [reflexivity|].
  rewrite rev_unit. unfold drag_session. rewrite fold_left_app. simpl.
  unfold _updateDropIndicator. cbv zeta.
  destruct (_canIconFitAt d c r (drag_cols ic) (drag_rows ic) (icon_id ic));
    simpl; [split|]; reflexivity.
Qed.

(** ** Loading icons *)

(** X8: placing a loaded icon ([_loadDesktopFiles], [_addTrashIcon],
    [_addHomeIcon]) never takes a cell that holds another icon: every cell
    referencing an icon before is unchanged after. *)
Theorem load_icon_keeps_icons (d : desk) (ic : icon) (saved : option savedPosition) :
  reachable d ->
  forall c r x, getCell d c r = Some x -> cell_icon x <> None ->
    getCell (fst (load_icon d ic saved)) c r = Some x.
Proof.
  intros Hr c r x Hx Hn. pose proof (reachable_consistent d Hr) as Hcons.
  unfold load_icon. cbv zeta.
  destruct (saved_target d saved) as [tc tr]. cbv beta iota.
  assert (Hanchor : forall a b,
    (if areCellsFree d tc tr (iconCellSize ic) None then Some (tc, tr)
     else findFreeCell d (iconCellSize ic) None) = Some (a, b) ->
    areCellsFree d a b (iconCellSize ic) None = true).
  { intros a b. destruct (areCellsFree d tc tr (iconCellSize ic) None) eqn:E.
    - intros [= <- <-]. exact E.
    - intros H. apply findFreeCell_Some in H. tauto. }
  destruct (if areCellsFree d tc tr (iconCellSize ic) None then Some (tc, tr)
            else findFreeCell d (iconCellSize ic) None) as [[a b]|] eqn:Ef;
    [|exact Hx].
  destruct (getCell d a b); cbn [fst]; [|exact Hx].
  rewrite getCell_place. destruct (in_placement a b (iconCellSize ic) c r) eqn:Ein;
    [|exact Hx].
  exfalso. pose proof (proj1 (in_placement_iff _ _ _ c r) Ein) as Hrange.
  specialize (Hanchor a b eq_refl).
  pose proof (proj1 (areCellsFree_iff d a b (iconCellSize ic) None ltac:(lia) ltac:(lia))
                Hanchor) as H.
  destruct (H (c - a) (r - b)) as (y & Hy & Hfree); [lia|lia|].
  replace (a + (c - a)) with c in Hy by lia. replace (b + (r - b)) with r in Hy by lia.
  rewrite Hx in Hy. injection Hy as <-.
  apply (consistent_free x None (Hcons c r x Hx)) in Hfree.
  destruct Hfree; contradiction.
Qed.

Lemma load_icon_keeps_icons_witness :
  let x := mkCell 0 0 0 0 100 100 (Some 1%nat) true in
  (reachable grid_4x4_A /\ getCell grid_4x4_A 0 0 = Some x /\ cell_icon x <> None) /\
  getCell (fst (load_icon grid_4x4_A (mkIcon 2 None)
                 (Some (mkSaved (Some 0) (Some 0) None None)))) 0 0 = Some x.
Proof.
  intros x.
  assert (H : reachable grid_4x4_A).
  { apply rs_place. apply (rs_rebuild (mkDesk 4 4 100 100 None)). apply rs_init. }
  assert (Hx : getCell grid_4x4_A 0 0 = Some x) by (vm_compute; reflexivity).
  assert (Hn : cell_icon x <> None) by discriminate.
  split; [split; [exact H | split; [exact Hx | exact Hn]]|].
  apply (load_icon_keeps_icons grid_4x4_A (mkIcon 2 None) _ H 0 0 x Hx Hn).
Defined.

(** X9: a loaded icon is always added to the grid. Either its cells are
    reserved at a free anchor (the saved one when that is free) and it is
    added at that cell's pixel origin, or no anchor of the grid is free and
    it is added at [(0, 0)] with no cell reserved. *)
Theorem load_icon_outcome (d : desk) (ic : icon) (saved : option savedPosition) :
  reachable d ->
  1 <= fp_cols (iconCellSize ic) -> 1 <= fp_rows (iconCellSize ic) ->
  (exists col row,
     areCellsFree d col row (iconCellSize ic) None = true /\
     load_icon d ic saved =
       (fst (placeIconInCell ic col row d), Some (col * cell_w d, row * cell_h d)) /\
     (areCellsFree d (fst (saved_target d saved)) (snd (saved_target d saved))
        (iconCellSize ic) None = true -> (col, row) = saved_target d saved)) \/
  (load_icon d ic saved = (d, Some (0, 0)) /\
   forall col row, areCellsFree d col row (iconCellSize ic) None = false).
Proof.
  intros Hr Hc Hrw. pose proof (reachable_wf d Hr) as Hwf.
  assert (Hpos : forall col row, areCellsFree d col row (iconCellSize ic) None = true ->
    exists x, getCell d col row = Some x /\ cell_x x = col * cell_w d /\
              cell_y x = row * cell_h d).
  { intros col row Hf. destruct (areCellsFree_anchor d col row _ None Hc Hrw Hf) as [x Hx].
    destruct (reachable_geom d Hr col row x Hx) as (_ & _ & G3 & G4 & _).
    exists x. split; [exact Hx|]. split; assumption. }
  unfold load_icon. cbv zeta.
  destruct (saved_target d saved) as [tc tr] eqn:Est. cbv beta iota. cbn [fst snd].
  destruct (areCellsFree d tc tr (iconCellSize ic) None) eqn:E.
  - left. exists tc, tr. destruct (Hpos tc tr E) as (x & Hx & G3 & G4).
    rewrite Hx, G3, G4. split; [exact E|]. split; [reflexivity|]. intros _; reflexivity.
  - destruct (findFreeCell d (iconCellSize ic) None) as [[a b]|] eqn:Ef.
    + left. exists a, b. apply findFreeCell_Some in Ef as (_ & _ & Ea & _).
      destruct (Hpos a b Ea) as (x & Hx & G3 & G4).
      rewrite Hx, G3, G4. split; [exact Ea|]. split; [reflexivity|].
      intros H. discriminate.
    + right. split; [reflexivity|]. intros col row.
      destruct (areCellsFree d col row (iconCellSize ic) None) eqn:E2; [|reflexivity].
      destruct (free_anchor_in_range d col row _ None Hwf Hc Hrw E2) as [Hcol Hrow].
      rewrite (proj1 (findFreeCell_None d _ None) Ef row col Hrow Hcol) in E2.
      discriminate.
Qed.

Lemma load_icon_outcome_witness :
  (reachable grid_4x4_A /\ 1 <= fp_cols (iconCellSize icon_A) /\
   1 <= fp_rows (iconCellSize icon_A)) /\
  ((exists col row,
     areCellsFree grid_4x4_A col row (iconCellSize icon_A) None = true /\
     load_icon grid_4x4_A icon_A None =
       (fst (placeIconInCell icon_A col row grid_4x4_A),
        Some (col * cell_w grid_4x4_A, row * cell_h grid_4x4_A)) /\
     (areCellsFree grid_4x4_A (fst (saved_target grid_4x4_A None))
        (snd (saved_target grid_4x4_A None)) (iconCellSize icon_A) None = true ->
      (col, row) = saved_target grid_4x4_A None)) \/
   (load_icon grid_4x4_A icon_A None = (grid_4x4_A, Some (0, 0)) /\
    forall col row, areCellsFree grid_4x4_A col row (iconCellSize icon_A) None = false)).
Proof.
  assert (H : reachable grid_4x4_A).
  { apply rs_place. apply (rs_rebuild (mkDesk 4 4 100 100 None)). apply rs_init. }
  split; [split; [exact H | split; vm_compute; discriminate]|].
  apply (load_icon_outcome grid_4x4_A icon_A None H); vm_compute; discriminate.
Defined.

(** ** The spiral search stays near its target *)

(** X10: on a well-formed grid, [findNearestFreeCell] answers a free anchor
    inside the grid within [maxRadius] rows and columns of the target, and
    answers not-found only when no anchor that close is free. *)
Theorem findNearestFreeCell_within (d : desk) (tc tr : Z) (fp : footprint) (ex : option nat) :
  wf d -> 1 <= fp_cols fp -> 1 <= fp_rows fp ->
  match findNearestFreeCell d tc tr fp ex with
  | Some (col, row) =>
      areCellsFree d col row fp ex = true /\
      0 <= col < grid_columns d /\ 0 <= row < grid_rows d /\
      Z.abs (col - tc) <= maxRadius /\ Z.abs (row - tr) <= maxRadius
  | None =>
      forall col row, Z.abs (col - tc) <= maxRadius -> Z.abs (row - tr) <= maxRadius ->
        areCellsFree d col row fp ex = false
  end.
Proof.
  intros Hwf Hc Hr. rewrite findNearestFreeCell_refines. unfold findNearestFree_spec.
  destruct (areCellsFree d tc tr fp ex) eqn:E0.
  - destruct (free_anchor_in_range d tc tr fp ex Hwf Hc Hr E0).
    split; [exact E0|]. unfold maxRadius. repeat split; lia.
  - destruct (List.find _ _) as [[col row]|] eqn:Ef.
    + apply find_some in Ef as [Hin Hp].
      rewrite !andb_true_iff, !Z.leb_le in Hp. destruct Hp as [[Hc0 Hr0] Hfree].
      apply in_flat_map in Hin as (rad & Hrad & Hin).
      apply zrange_In in Hrad. unfold maxRadius in Hrad. simpl in Hrad.
      apply in_map_iff in Hin as ([dc dr] & Heq & Hin).
      injection Heq as <- <-. unfold ring_offsets in Hin.
      apply filter_In in Hin as [_ Hmax]. apply Z.eqb_eq in Hmax.
      destruct (free_anchor_in_range d _ _ fp ex Hwf Hc Hr Hfree).
      split; [exact Hfree|]. unfold maxRadius. repeat split; lia.
    + intros col row Hdc Hdr. unfold maxRadius in Hdc, Hdr.
      destruct (areCellsFree d col row fp ex) eqn:Efree; [|reflexivity].
      exfalso.
      destruct (Z.eq_dec col tc) as [->|Hne1]; [destruct (Z.eq_dec row tr) as [->|Hne2]|].
      * congruence.
      * pose proof (find_none _ _ Ef (tc, row)) as Hn.
        destruct (areCellsFree_anchor d tc row fp ex Hc Hr Efree) as [x Hx].
        destruct (getCell_Some_bounds _ _ _ _ Hx) as [Hc0 Hr0].
        cbv beta iota in Hn. rewrite Efree in Hn.
        assert (Hz : (0 <=? tc) && (0 <=? row) = true)
          by (rewrite andb_true_iff, !Z.leb_le; lia).
        rewrite Hz in Hn. apply Bool.diff_true_false, Hn.
        apply in_flat_map. exists (Z.max (Z.abs (tc - tc)) (Z.abs (row - tr))).
        split; [apply zrange_In; unfold maxRadius; simpl; lia|].
        apply in_map_iff. exists (tc - tc, row - tr).
        split; [f_equal; lia|]. unfold ring_offsets. apply filter_In.
        split; [|apply Z.eqb_eq; reflexivity].
        apply in_prod_iff. split; apply zrange_In; rewrite Z_of_to_nat; lia.
      * pose proof (find_none _ _ Ef (col, row)) as Hn.
        destruct (areCellsFree_anchor d col row fp ex Hc Hr Efree) as [x Hx].
        destruct (getCell_Some_bounds _ _ _ _ Hx) as [Hc0 Hr0].
        cbv beta iota in Hn. rewrite Efree in Hn.
        assert (Hz : (0 <=? col) && (0 <=? row) = true)
          by (rewrite andb_true_iff, !Z.leb_le; lia).
        rewrite Hz in Hn. apply Bool.diff_true_false, Hn.
        apply in_flat_map. exists (Z.max (Z.abs (col - tc)) (Z.abs (row - tr))).
        split; [apply zrange_In; unfold maxRadius; simpl; lia|].
        apply in_map_iff. exists (col - tc, row - tr).
        split; [f_equal; lia|]. unfold ring_offsets. apply filter_In.
        split; [|apply Z.eqb_eq; reflexivity].
        apply in_prod_iff. split; apply zrange_In; rewrite Z_of_to_nat; lia.
Qed.

Lemma findNearestFreeCell_within_witness :
  (wf grid_4x4_A /\ 1 <= fp_cols (mkFootprint 2 2) /\ 1 <= fp_rows (mkFootprint 2 2)) /\
  match findNearestFreeCell grid_4x4_A 0 0 (mkFootprint 2 2) None with
  | Some (col, row) =>
      areCellsFree grid_4x4_A col row (mkFootprint 2 2) None = true /\
      0 <= col < grid_columns grid_4x4_A /\ 0 <= row < grid_rows grid_4x4_A /\
      Z.abs (col - 0) <= maxRadius /\ Z.abs (row - 0) <= maxRadius
  | None =>
      forall col row, Z.abs (col - 0) <= maxRadius -> Z.abs (row - 0) <= maxRadius ->
        areCellsFree grid_4x4_A col row (mkFootprint 2 2) None = false
  end.
Proof.
  assert (H : wf grid_4x4_A).
  { apply reachable_wf, rs_place. apply (rs_rebuild (mkDesk 4 4 100 100 None)). apply rs_init. }
  split; [split; [exact H | simpl; lia]|].
  apply (findNearestFreeCell_within grid_4x4_A 0 0 (mkFootprint 2 2) None H); simpl; lia.
Defined.

(** ** Freeing the cells of a removed file's icon *)

(** X11: when the table exists and the icon's position rounds to
    non-negative indices, the file-removed handler throws nothing and frees
    every existing cell of the footprint at the rounded position, whatever
    icon that cell references; every other cell is left as it was. The
    table need not have the settings' shape. *)
Theorem file_removed_frees_cells (d : desk) (cellSize : footprint) (iconX iconY : Z) :
  _cells d <> None -> 0 < cell_w d -> 0 < cell_h d ->
  0 <= round_div iconX (cell_w d) -> 0 <= round_div iconY (cell_h d) ->
  snd (free_icon_cells d cellSize iconX iconY) = false /\
  forall c r, getCell (fst (free_icon_cells d cellSize iconX iconY)) c r =
    if in_placement (round_div iconX (cell_w d)) (round_div iconY (cell_h d)) cellSize c r
    then option_map clear (getCell d c r) else getCell d c r.
Proof. intros Hcells _ _ Hc Hr. exact (free_icon_cells_spec d cellSize iconX iconY Hcells Hc Hr). Qed.

Lemma file_removed_frees_cells_witness :
  (_cells grid_4x4_A <> None /\ 0 < cell_w grid_4x4_A /\ 0 < cell_h grid_4x4_A /\
   0 <= round_div 60 (cell_w grid_4x4_A) /\ 0 <= round_div 0 (cell_h grid_4x4_A)) /\
  snd (free_icon_cells grid_4x4_A (mkFootprint 2 2) 60 0) = false /\
  forall c r, getCell (fst (free_icon_cells grid_4x4_A (mkFootprint 2 2) 60 0)) c r =
    if in_placement (round_div 60 (cell_w grid_4x4_A)) (round_div 0 (cell_h grid_4x4_A))
         (mkFootprint 2 2) c r
    then option_map clear (getCell grid_4x4_A c r) else getCell grid_4x4_A c r.
Proof.
  assert (Hc : _cells grid_4x4_A <> None) by (vm_compute; discriminate).
  split; [split; [exact Hc | vm_compute; repeat split; discriminate]|].
  apply (file_removed_frees_cells grid_4x4_A (mkFootprint 2 2) 60 0 Hc);
    vm_compute; try reflexivity; discriminate.
Defined.

(** X12: when the icon's position rounds to a negative column, or to a
    negative row with a column that exists, the handler throws a TypeError
    ([this._cells[c]] or [this._cells[c][r]] is undefined) before changing
    any cell; the [catch] then skips the removal of the icon. *)
Theorem file_removed_negative_throws (d : desk) (cs : list (list cell))
    (cellSize : footprint) (iconX iconY : Z) :
  _cells d = Some cs -> 0 < cell_w d -> 0 < cell_h d ->
  1 <= fp_cols cellSize -> 1 <= fp_rows cellSize ->
  (round_div iconX (cell_w d) < 0 \/ round_div iconY (cell_h d) < 0) ->
  round_div iconX (cell_w d) < Z.of_nat (length cs) ->
  free_icon_cells d cellSize iconX iconY = (d, true).
Proof.
  intros Hcs _ _ Hc Hr Hneg Hlt. unfold free_icon_cells.
  set (col := round_div iconX (cell_w d)) in *.
  set (row := round_div iconY (cell_h d)) in *.
  destruct (Z.to_nat (col + fp_cols cellSize - col)) as [|n] eqn:En; [lia|]. simpl.
  unfold cells_length at 1. rewrite Hcs.
  destruct (Z.ltb_spec col (Z.of_nat (length cs))); [|lia].
  destruct (Z.to_nat (row + fp_rows cellSize - row)) as [|m] eqn:Em; [lia|]. simpl.
  unfold column_length. rewrite Hcs.
  destruct (Z.ltb_spec col 0); [reflexivity|].
  destruct (lookup_lt_is_Some_2 cs (Z.to_nat col)) as [column Ecol]; [lia|].
  rewrite Ecol. destruct (Z.ltb_spec row (Z.of_nat (length column))); [|lia].
  destruct (Z.ltb_spec row 0); [reflexivity|lia].
Qed.

Lemma file_removed_negative_throws_witness :
  ((exists cs, _cells grid_4x4 = Some cs /\
               round_div (-100) (cell_w grid_4x4) < Z.of_nat (length cs)) /\
   0 < cell_w grid_4x4 /\ 0 < cell_h grid_4x4 /\
   1 <= fp_cols (mkFootprint 1 1) /\ 1 <= fp_rows (mkFootprint 1 1) /\
   (round_div (-100) (cell_w grid_4x4) < 0 \/ round_div 0 (cell_h grid_4x4) < 0)) /\
  free_icon_cells grid_4x4 (mkFootprint 1 1) (-100) 0 = (grid_4x4, true).
Proof.
  destruct (_cells grid_4x4) as [cs|] eqn:Ecs; [|discriminate].
  assert (Hlen : round_div (-100) (cell_w grid_4x4) < Z.of_nat (length cs)).
  { vm_compute in Ecs. injection Ecs as <-. vm_compute. reflexivity. }
  assert (Hneg : round_div (-100) (cell_w grid_4x4) < 0 \/ round_div 0 (cell_h grid_4x4) < 0).
  { left. vm_compute. reflexivity. }
  split; [split; [exists cs; split; [reflexivity | exact Hlen]|]|].
  - split; [vm_compute; reflexivity|]. split; [vm_compute; reflexivity|].
    split; [simpl; lia|]. split; [simpl; lia|]. exact Hneg.
  - apply (file_removed_negative_throws grid_4x4 cs (mkFootprint 1 1) (-100) 0 Ecs);
      [vm_compute; reflexivity | vm_compute; reflexivity | simpl; lia | simpl; lia
      | exact Hneg | exact Hlen].
Defined.

(** X13: removing the file of an icon placed by [placeIconInCell] frees
    exactly the cells of its footprint at its anchor (its pixel position
    rounds back to the anchor), and throws nothing. *)
Theorem file_removed_after_place (d : desk) (ic : icon) (fp : footprint) (col row px py : Z) :
  reachable d -> 0 < cell_w d -> 0 < cell_h d ->
  icon_cellSize ic = Some fp ->
  snd (placeIconInCell ic col row d) = Some (px, py) ->
  let d1 := fst (placeIconInCell ic col row d) in
  snd (free_icon_cells d1 fp px py) = false /\
  forall c r, getCell (fst (free_icon_cells d1 fp px py)) c r =
    if in_placement col row fp c r then option_map clear (getCell d c r)
    else getCell d c r.
Proof.
  intros Hr Hw Hh Hfp Hs d1.
  assert (Hr1 : reachable d1) by (apply rs_place; exact Hr).
  destruct (place_dims ic col row d) as [Dw Dh]. fold d1 in Dw, Dh.
  rewrite snd_placeIconInCell in Hs. fold d1 in Hs.
  destruct (getCell d1 col row) as [x|] eqn:Ex; [|discriminate].
  injection Hs as <- <-.
  destruct (reachable_geom d1 Hr1 col row x Ex) as (_ & _ & G3 & G4 & _ & _).
  destruct (getCell_Some_bounds _ _ _ _ Ex) as [Hc0 Hr0].
  assert (Hcells : _cells d1 <> None).
  { intros E. unfold getCell in Ex. rewrite E in Ex. discriminate. }
  assert (Rc : round_div (cell_x x) (cell_w d1) = col)
    by (rewrite G3; apply round_div_cell; lia).
  assert (Rr : round_div (cell_y x) (cell_h d1) = row)
    by (rewrite G4; apply round_div_cell; lia).
  destruct (free_icon_cells_spec d1 fp (cell_x x) (cell_y x) Hcells
              ltac:(rewrite Rc; exact Hc0) ltac:(rewrite Rr; exact Hr0)) as [H1 H2].
  split; [exact H1|]. intros c r. rewrite H2, Rc, Rr. unfold d1.
  rewrite getCell_place, (iconCellSize_some ic fp Hfp).
  destruct (in_placement col row fp c r); [|reflexivity].
  destruct (getCell d c r); reflexivity.
Qed.

Lemma file_removed_after_place_witness :
  (reachable grid_4x4 /\ 0 < cell_w grid_4x4 /\ 0 < cell_h grid_4x4 /\
   icon_cellSize icon_A = Some (mkFootprint 2 2) /\
   snd (placeIconInCell icon_A 1 2 grid_4x4) = Some (100, 200)) /\
  let d1 := fst (placeIconInCell icon_A 1 2 grid_4x4) in
  snd (free_icon_cells d1 (mkFootprint 2 2) 100 200) = false /\
  forall c r, getCell (fst (free_icon_cells d1 (mkFootprint 2 2) 100 200)) c r =
    if in_placement 1 2 (mkFootprint 2 2) c r then option_map clear (getCell grid_4x4 c r)
    else getCell grid_4x4 c r.
Proof.
  assert (H : reachable grid_4x4).
  { apply (rs_rebuild (mkDesk 4 4 100 100 None)). apply rs_init. }
  split; [split; [exact H | repeat split; vm_compute; reflexivity]|].
  apply (file_removed_after_place grid_4x4 icon_A (mkFootprint 2 2) 1 2 100 200 H);
    vm_compute; reflexivity.
Defined.
